(** * File organizer agent: boundary guard, plan extraction and review loop

    A shallow embedding of [file_organizer_agent.py].  Python [str] values
    are modelled as [string] (sequences of 8-bit characters); case mapping
    and whitespace follow Python on the ASCII range.  The path functions
    that [is_path_within_boundary] calls are those of CPython's
    [posixpath] module. *)

From Stdlib Require Import Bool Arith Lia List Ascii String Permutation.
Import ListNotations.
Open Scope string_scope.
Open Scope list_scope.

(** ** Python string primitives *)

Module PyStr.

Definition nl : string := String (ascii_of_nat 10) "".
Definition dq : string := String (ascii_of_nat 34) "".

(** [str.lower] on the ASCII range. *)
Definition lower_char (c : ascii) : ascii :=
  let n := nat_of_ascii c in
  if ((65 <=? n) && (n <=? 90))%nat then ascii_of_nat (n + 32) else c.

Fixpoint lower (s : string) : string :=
  match s with
  | "" => ""
  | String c t => String (lower_char c) (lower t)
  end.

(** [str.isspace] on the ASCII range: TAB, LF, VT, FF, CR, FS, GS, RS, US
    and the space. *)
Definition is_space (c : ascii) : bool :=
  let n := nat_of_ascii c in
  (((9 <=? n) && (n <=? 13)) || ((28 <=? n) && (n <=? 32)))%nat.

Fixpoint lstrip (s : string) : string :=
  match s with
  | "" => ""
  | String c t => if is_space c then lstrip t else s
  end.

Fixpoint rstrip (s : string) : string :=
  match s with
  | "" => ""
  | String c t =>
      match rstrip t with
      | "" => if is_space c then "" else String c ""
      | r => String c r
      end
  end.

(** [s.strip()] *)
Definition strip (s : string) : string := rstrip (lstrip s).

(** [s.startswith(p)] *)
Fixpoint startswith (s p : string) {struct p} : bool :=
  match p with
  | "" => true
  | String a p' =>
      match s with
      | "" => false
      | String b s' => Ascii.eqb a b && startswith s' p'
      end
  end.

(** [needle in hay] *)
Fixpoint contains (needle hay : string) : bool :=
  startswith hay needle ||
  match hay with
  | "" => false
  | String _ t => contains needle t
  end.

(** [s[n:]] *)
Fixpoint drop (n : nat) (s : string) : string :=
  match n, s with
  | O, _ => s
  | S _, "" => ""
  | S m, String _ t => drop m t
  end.

(** [s.split(c)] for a one-character separator: never the empty list. *)
Fixpoint split_on (c : ascii) (s : string) : list string :=
  match s with
  | "" => [""]
  | String a t =>
      if Ascii.eqb a c then "" :: split_on c t
      else match split_on c t with
           | h :: r => String a h :: r
           | [] => [String a ""]
           end
  end.

(** [s.split(marker, 1)]: at most one cut, at the leftmost occurrence. *)
Fixpoint split1_aux (marker s before : string) : list string :=
  if startswith s marker then [before; drop (length marker) s]
  else match s with
       | "" => [before]
       | String a t => split1_aux marker t (before ++ String a "")
       end.

Definition split1 (marker s : string) : list string := split1_aux marker s "".

(** [sep.join(parts)] *)
Definition join (sep : string) (parts : list string) : string :=
  concat sep parts.

(** [c in s] for a single character. *)
Fixpoint occurs (c : ascii) (s : string) : bool :=
  match s with
  | "" => false
  | String a t => Ascii.eqb a c || occurs c t
  end.

(** Truthiness of a [str]: non-empty. *)
Definition truthy (s : string) : bool :=
  match s with "" => false | _ => true end.

End PyStr.
Import PyStr.

(** ** The [posixpath] functions used by the boundary guard *)

Module PosixPath.

Definition sep_char : ascii := ascii_of_nat 47.
Definition sep : string := "/".

(** Python exceptions that the path functions can raise. *)
Inductive path_error : Type :=
| ValueError
| IndexError.

Inductive pyres (A : Type) : Type :=
| Ok (a : A)
| Raise (e : path_error).
Arguments Ok {A} a.
Arguments Raise {A} e.

(** [posixpath.join(a, p)] *)
Definition join2 (a p : string) : string :=
  if startswith p sep then p
  else if negb (truthy a) || startswith (drop (length a - 1) a) sep
       then a ++ p
       else a ++ sep ++ p.

(** The loop of [normpath].  [new_comps] is a stack: its head is the
    component appended last ([new_comps[-1]]). *)
Fixpoint normpath_loop (initial_slashes : nat) (comps new_comps : list string)
  : list string :=
  match comps with
  | [] => new_comps
  | comp :: rest =>
      if (comp =? "") || (comp =? ".") then
        normpath_loop initial_slashes rest new_comps
      else if negb (comp =? "..")
              || ((initial_slashes =? 0)%nat
                  && match new_comps with [] => true | _ => false end)
              || match new_comps with top :: _ => top =? ".." | [] => false end
      then normpath_loop initial_slashes rest (comp :: new_comps)
      else normpath_loop initial_slashes rest (tl new_comps)
  end.

(** POSIX allows one or two initial slashes, and treats three or more as a
    single slash. *)
Definition initial_slashes (path : string) : nat :=
  if startswith path sep then
    if startswith path "//" && negb (startswith path "///") then 2 else 1
  else 0.

Fixpoint repeat_sep (n : nat) : string :=
  match n with
  | O => ""
  | S m => sep ++ repeat_sep m
  end.

Definition norm_comps (path : string) : list string :=
  rev (normpath_loop (initial_slashes path) (split_on sep_char path) []).

(** [posixpath.normpath(path)] *)
Definition normpath (path : string) : string :=
  if path =? "" then "."
  else
    let p := (repeat_sep (initial_slashes path) ++ join sep (norm_comps path))%string in
    if truthy p then p else ".".

Section WithCwd.

(** The result of [os.getcwd()]. *)
Variable cwd : string.

(** [posixpath.abspath(path)] *)
Definition abspath (path : string) : string :=
  normpath (if startswith path sep then path else join2 cwd path).

End WithCwd.

(** [posixpath.expanduser(path)]; [home] is [$HOME] and [pw_dir] the
    password database ([pwd.getpwnam(name).pw_dir], [None] for a
    [KeyError]). *)
Fixpoint find_sep (s : string) : option nat :=
  match s with
  | "" => None
  | String a t => if Ascii.eqb a sep_char then Some 0
                  else option_map S (find_sep t)
  end.

Fixpoint rstrip_sep (s : string) : string :=
  match s with
  | "" => ""
  | String c t =>
      match rstrip_sep t with
      | "" => if Ascii.eqb c sep_char then "" else String c ""
      | r => String c r
      end
  end.

Definition expanduser (home : string) (pw_dir : string -> option string)
  (path : string) : string :=
  match path with
  | String "~" after =>
      let i := match find_sep after with Some k => S k | None => length path end in
      let userhome :=
        if (i =? 1)%nat then Some home else pw_dir (substring 1 (i - 1) path) in
      match userhome with
      | None => path
      | Some h =>
          let r := (rstrip_sep h ++ drop i path)%string in
          if truthy r then r else "/"
      end
  | _ => path
  end.

(** Components kept by [commonpath]: [[c for c in s if c and c != curdir]]. *)
Definition keep_comp (c : string) : bool := truthy c && negb (c =? ".").

Definition path_comps (path : string) : list string :=
  filter keep_comp (split_on sep_char path).

(** Python's ordering of lists of strings (lexicographic, code points). *)
Fixpoint list_compare (a b : list string) : comparison :=
  match a, b with
  | [], [] => Eq
  | [], _ :: _ => Lt
  | _ :: _, [] => Gt
  | x :: a', y :: b' =>
      match String.compare x y with
      | Eq => list_compare a' b'
      | c => c
      end
  end.

Definition list_lt (a b : list string) : bool :=
  match list_compare a b with Lt => true | _ => false end.

(** [min] and [max] of a two-element sequence [[a, b]]: the first of equal
    elements wins. *)
Definition py_min (a b : list string) := if list_lt b a then b else a.
Definition py_max (a b : list string) := if list_lt a b then b else a.

(** [for i, c in enumerate(s1): if c != s2[i]: common = s1[:i]; break];
    [s2[i]] past the end of [s2] raises [IndexError]. *)
Fixpoint common_prefix (s1 s2 : list string) : pyres (list string) :=
  match s1 with
  | [] => Ok []
  | c :: t1 =>
      match s2 with
      | [] => Raise IndexError
      | d :: t2 =>
          if c =? d then
            match common_prefix t1 t2 with
            | Ok l => Ok (c :: l)
            | Raise e => Raise e
            end
          else Ok []
      end
  end.

(** [posixpath.commonpath([p1, p2])] *)
Definition commonpath (p1 p2 : string) : pyres string :=
  let abs1 := startswith p1 sep in
  let abs2 := startswith p2 sep in
  if negb (Bool.eqb abs1 abs2) then Raise ValueError
  else
    let c1 := path_comps p1 in
    let c2 := path_comps p2 in
    match common_prefix (py_min c1 c2) (py_max c1 c2) with
    | Ok common => Ok ((if abs1 then sep else "") ++ join sep common)%string
    | Raise e => Raise e
    end.

(** A component as [normpath] leaves it in an absolute path: not empty,
    neither [.] nor [..], and without separator. *)
Definition clean_comp (c : string) : bool :=
  truthy c && negb (c =? ".") && negb (c =? "..") && negb (occurs sep_char c).

(** [a] is a prefix of [b], component by component. *)
Fixpoint comps_prefix (a b : list string) : bool :=
  match a, b with
  | [], _ => true
  | _ :: _, [] => false
  | x :: a', y :: b' => (x =? y) && comps_prefix a' b'
  end.

Definition all_clean (comps : list string) : Prop :=
  Forall (fun c => clean_comp c = true) comps.

(** The shape of what [normpath] and [abspath] return for an absolute
    path: one or two slashes, then clean components joined by slashes. *)
Definition canonical (s : string) (k : nat) (comps : list string) : Prop :=
  (k = 1 \/ k = 2) /\ all_clean comps /\
  s = (repeat_sep k ++ join sep comps)%string.

End PosixPath.
Import PosixPath.

(** ** Safety check helper *)

Section BoundaryGuard.

Variable cwd : string.

(** [is_path_within_boundary(path_to_check, boundary_path)].  Both
    [except] clauses return [False]; the diagnostic [print] of the second
    one is not recorded. *)
Definition is_path_within_boundary (path_to_check boundary_path : string) : bool :=
  let abs_boundary := abspath cwd boundary_path in
  let abs_check := abspath cwd path_to_check in
  match commonpath abs_boundary abs_check with
  | Ok common => common =? abs_boundary
  | Raise ValueError => false
  | Raise _ => false
  end.

End BoundaryGuard.

(** ** Choice of the directory to organize (start of [main]) *)

Section Target.

Variable cwd : string.
Variable home : string.
Variable pw_dir : string -> option string.

(** [os.path.isdir] on the file system of the session. *)
Variable isdir : string -> bool.

(** [TOP_LEVEL_ALLOWED_PATH] and [DEFAULT_TARGET_DIR]. *)
Variable top_level_path_config : string.
Variable default_target_dir_config : string.

(** [os.path.abspath(os.path.expanduser(p))] *)
Definition resolve (p : string) : string :=
  abspath cwd (expanduser home pw_dir p).

Definition resolved_top_level : string := resolve top_level_path_config.

Inductive verdict : Type :=
| NotADirectory
| OutsideBoundary
| Accepted.

(** The [if not isdir / elif not is_path_within_boundary / else] chain
    that both the configured default and the operator's path go through. *)
Definition check_candidate (resolved : string) : verdict :=
  if negb (isdir resolved) then NotADirectory
  else if negb (is_path_within_boundary cwd resolved resolved_top_level)
       then OutsideBoundary
       else Accepted.

(** [if default_target_dir_config: ...] *)
Definition default_target : option string :=
  if truthy default_target_dir_config then
    match check_candidate (resolve default_target_dir_config) with
    | Accepted => Some (resolve default_target_dir_config)
    | _ => None
    end
  else None.

(** The [while True:] prompt over the operator's pending lines: the chosen
    directory and the lines left, or [None] when input ends first (the
    [EOFError] leaves [main]).  The messages printed are not recorded. *)
Fixpoint prompt_target (lines : list string) : option (string * list string) :=
  match lines with
  | [] => None
  | user_path :: rest =>
      match check_candidate (resolve user_path) with
      | Accepted => Some (resolve user_path, rest)
      | _ => prompt_target rest
      end
  end.

(** The value given to [ALLOWED_BASE_PATH_STR]. *)
Definition determine_target (lines : list string) : option (string * list string) :=
  match default_target with
  | Some d => Some (d, lines)
  | None => prompt_target lines
  end.

End Target.

(** ** Plan extraction and rendering (pure parts of [main]) *)

Definition plan_marker : string := "PLAN:".
Definition tool_call_prefix : string := "call tool".

(** [[line.strip() for line in text.split('\n')
      if line.strip().lower().startswith(tool_call_prefix)]] *)
Definition is_tool_line (line : string) : bool :=
  startswith (lower (strip line)) tool_call_prefix.

Definition tool_lines (text : string) : list string :=
  map strip (filter is_tool_line (split_on (ascii_of_nat 10) text)).

(** The [plan_lines] computed from [last_response]. *)
Definition extract_plan_lines (last_response : string) : list string :=
  if contains plan_marker last_response then
    tool_lines (strip (nth 1 (split1 plan_marker last_response) ""))
  else if contains tool_call_prefix (lower last_response) then
    tool_lines last_response
  else [].

(** The value of [current_plan] after extraction. *)
Definition extract_plan (last_response : string) : string :=
  match extract_plan_lines last_response with
  | [] => ""
  | plan_lines => join nl plan_lines
  end.

(** The three display lists, filled by one pass over the plan's lines. *)
Record groups : Type := mkGroups {
  creates : list string;
  moves : list string;
  others : list string
}.

Definition classify_step (g : groups) (line : string) : groups :=
  if contains "create_directory" line then
    mkGroups (creates g ++ [line]) (moves g) (others g)
  else if contains "move_file" line then
    mkGroups (creates g) (moves g ++ [line]) (others g)
  else mkGroups (creates g) (moves g) (others g ++ [line]).

Definition plan_lines_of (current_plan : string) : list string :=
  split_on (ascii_of_nat 10) current_plan.

Definition classify (current_plan : string) : groups :=
  fold_left classify_step (plan_lines_of current_plan) (mkGroups [] [] []).

Definition bullet (x : string) : string := ("    - " ++ x)%string.

Definition render_group (title : string) (items : list string) : list string :=
  match items with
  | [] => []
  | _ => (nl ++ title)%string :: map bullet items
  end.

(** The lines printed for a non-empty [current_plan]. *)
Definition render_plan (current_plan : string) : list string :=
  let g := classify current_plan in
  [(nl ++ "--- Extracted Plan Actions --- (Review Carefully!) ---")%string]
  ++ render_group "  Directories to Create:" (creates g)
  ++ render_group "  Files/Folders to Move:" (moves g)
  ++ render_group "  Other Actions:" (others g)
  ++ ["--------------------------------------------------------"].

Definition review_prompt : string :=
  (nl ++ "Review the plan. Type 'yes' to execute, 'no' to exit, "
      ++ "or provide feedback to revise the plan: ")%string.

Definition execution_prompt_of (current_plan : string) : string :=
  ("Execute the following organization plan step-by-step using the available tools. "
   ++ "Call the tools exactly as listed." ++ nl ++ nl
   ++ "Plan:" ++ nl ++ current_plan)%string.

Definition revision_prompt_of (user_input : string) : string :=
  ("The user wants to revise the organization plan. Their feedback is: '"
   ++ user_input ++ "'." ++ nl
   ++ "Generate a *new* organization plan (as a sequence of tool calls) that addresses this feedback. "
   ++ "IMPORTANT: If you need to know the current state of the directory, use the 'list_directory' tool *first*.")%string.

(** ** The interactive session: effects as explicit state *)

Module Session.

(** What the controller does to the outside world, in order. *)
Inductive event : Type :=
| EPrint (text : string)
| EInput (prompt : string)
| EArun (prompt : string)
| ESleep (seconds : nat)
| ETraceback.

(** Exceptions seen by the loop's handlers: [ModelProviderError] and any
    other subclass of [Exception]. *)
Inductive exn : Type :=
| ModelProviderError (msg : string)
| Exception (msg : string).

(** The outcome of one [organizer_agent.arun(prompt)]: the response's
    content, or an exception. *)
Inductive reply : Type :=
| Content (text : string)
| Fails (e : exn).

(** Local variables of [main] that the loop reads and writes, the number
    of agent calls made so far, the operator's pending input lines and the
    events so far. *)
Record state : Type := mkState {
  current_plan : string;
  last_response : string;
  execution_prompt : option string;
  calls : nat;
  stdin : list string;
  out : list event
}.

Inductive outcome (A : Type) : Type :=
| Done (a : A)
| Raised (e : exn).
Arguments Done {A} a.
Arguments Raised {A} e.

Definition M (A : Type) : Type := state -> outcome A * state.

Definition ret {A} (a : A) : M A := fun st => (Done a, st).

Definition bind {A B} (m : M A) (k : A -> M B) : M B :=
  fun st =>
    match m st with
    | (Done a, st') => k a st'
    | (Raised e, st') => (Raised e, st')
    end.

Notation "x <- m ;; k" := (bind m (fun x => k))
  (at level 61, m at next level, right associativity).
Notation "m ;; k" := (bind m (fun _ => k))
  (at level 61, right associativity).

(** The state with [evs] appended to what happened so far. *)
Definition add_out (st : state) (evs : list event) : state :=
  mkState (current_plan st) (last_response st) (execution_prompt st)
    (calls st) (stdin st) (out st ++ evs).

Definition emit (e : event) : M unit :=
  fun st => (Done tt, add_out st [e]).

Definition print (text : string) : M unit := emit (EPrint text).

Fixpoint print_all (texts : list string) : M unit :=
  match texts with
  | [] => ret tt
  | t :: rest => print t ;; print_all rest
  end.

Definition sleep (seconds : nat) : M unit := emit (ESleep seconds).

(** [input(prompt)]: the next pending line, [EOFError] when there is none. *)
Definition input (prompt : string) : M string :=
  fun st =>
    let st' := mkState (current_plan st) (last_response st)
                 (execution_prompt st) (calls st) (tl (stdin st))
                 (out st ++ [EInput prompt]) in
    match stdin st with
    | [] => (Raised (Exception "EOF when reading a line"), st')
    | line :: _ => (Done line, st')
    end.

Definition get_current_plan : M string := fun st => (Done (current_plan st), st).
Definition get_last_response : M string := fun st => (Done (last_response st), st).
Definition get_execution_prompt : M (option string) :=
  fun st => (Done (execution_prompt st), st).

Definition set_current_plan (v : string) : M unit :=
  fun st => (Done tt, mkState v (last_response st) (execution_prompt st)
                        (calls st) (stdin st) (out st)).
Definition set_last_response (v : string) : M unit :=
  fun st => (Done tt, mkState (current_plan st) v (execution_prompt st)
                        (calls st) (stdin st) (out st)).
Definition set_execution_prompt (v : string) : M unit :=
  fun st => (Done tt, mkState (current_plan st) (last_response st) (Some v)
                        (calls st) (stdin st) (out st)).

Definition when (b : bool) (m : M unit) : M unit := if b then m else ret tt.

Inductive ctl : Type := Continue | Break.

Section Loop.

(** The agent: its reply to the [n]-th call, given the prompt. *)
Variable agent : nat -> string -> reply.

Variable ALLOWED_BASE_PATH_STR : string.
Variable initial_structure : string.
Variable user_context_input : string.
Variable debug_mode : bool.

(** [await organizer_agent.arun(prompt)], followed by reading [.content]. *)
Definition arun (prompt : string) : M string :=
  fun st =>
    let st' := mkState (current_plan st) (last_response st)
                 (execution_prompt st) (S (calls st)) (stdin st)
                 (out st ++ [EArun prompt]) in
    match agent (calls st) prompt with
    | Content text => (Done text, st')
    | Fails e => (Raised e, st')
    end.

Definition base_prompt : string :=
  ("Based on the following file structure within the base directory '"
   ++ ALLOWED_BASE_PATH_STR ++ "', "
   ++ "propose a logical organization plan. Present the plan as a sequence of tool calls "
   ++ "using relative paths." ++ nl ++ nl
   ++ "Initial Structure:" ++ nl ++ initial_structure)%string.

Definition proposal_prompt : string :=
  if truthy user_context_input then
    ("User Context for Organization: " ++ dq ++ user_context_input ++ dq
     ++ nl ++ nl ++ base_prompt)%string
  else base_prompt.

(** [if not current_plan: ...]: ask for a proposal and extract the plan. *)
Definition propose : M unit :=
  print (nl ++ "Asking agent to propose an organization plan...") ;;
  print "(This may take a while for large directory structures...)" ;;
  response <- arun proposal_prompt ;;
  set_last_response response ;;
  when debug_mode
    (print (nl ++ "--- Proposed Plan (Raw Agent Response) ---") ;;
     print response ;;
     print "-------------------------------------------") ;;
  set_current_plan "" ;;
  match extract_plan_lines response with
  | [] => print "Warning: Could not extract any 'call tool...' lines from the plan."
  | plan_lines => set_current_plan (join nl plan_lines)
  end.

(** Display of the extracted plan for review. *)
Definition display : M unit :=
  plan <- get_current_plan ;;
  if truthy plan then print_all (render_plan plan)
  else
    response <- get_last_response ;;
    when (truthy response && negb (truthy plan))
      (print (nl ++ "No actionable plan steps extracted from the agent's proposal.")).

Definition execute (plan : string) : M ctl :=
  print (nl ++ "Executing the plan...") ;;
  set_execution_prompt (execution_prompt_of plan) ;;
  result <- arun (execution_prompt_of plan) ;;
  print (nl ++ "--- Execution Result ---") ;;
  print result ;;
  print "-----------------------" ;;
  print (nl ++ "Organization complete (or attempted). Please check the directory: "
            ++ ALLOWED_BASE_PATH_STR) ;;
  ret Break.

Definition revise (user_input : string) : M ctl :=
  print (nl ++ "Asking agent to revise the plan based on feedback...") ;;
  response <- arun (revision_prompt_of user_input) ;;
  set_last_response response ;;
  set_current_plan "" ;;
  when debug_mode
    (print (nl ++ "--- Revised Plan Proposal Received (Raw) ---") ;;
     print response ;;
     print "-----------------------------------------------") ;;
  ret Continue.

(** Handling of the operator's answer. *)
Definition handle (user_input : string) : M ctl :=
  if user_input =? "yes" then
    plan <- get_current_plan ;;
    if negb (truthy plan) then
      print "No valid plan to execute. Please provide feedback or type 'no'." ;;
      ret Continue
    else execute plan
  else if user_input =? "no" then
    print "Exiting without organizing." ;;
    ret Break
  else revise user_input.

(** Display, operator input and its handling. *)
Definition review : M ctl :=
  display ;;
  raw <- input review_prompt ;;
  handle (strip (lower raw)).

(** The body of the [try] block of one loop iteration. *)
Definition try_body : M ctl :=
  plan <- get_current_plan ;;
  when (negb (truthy plan)) propose ;;
  review.

Definition is_rate_limit (msg : string) : bool :=
  let error_str := lower msg in
  contains "429" error_str || contains "resource_exhausted" error_str.

(** [except ModelProviderError as e: ...] *)
Definition on_model_provider_error (msg : string) : M ctl :=
  if is_rate_limit msg then
    print (nl ++ "Error: API Rate Limit Hit (429). Please wait while I pause...") ;;
    print "Pausing for 65 seconds before allowing retry..." ;;
    sleep 65 ;;
    print "Pause complete. You can retry the last action." ;;
    ep <- get_execution_prompt ;;
    when (negb (contains "Executing the plan"
                  (match ep with Some p => p | None => "" end)))
      (set_current_plan "" ;; set_last_response "") ;;
    ret Continue
  else
    print (nl ++ "Error communicating with the model provider: " ++ msg) ;;
    print "Exiting loop due to unexpected model error." ;;
    ret Break.

(** [except Exception as e: ...] *)
Definition on_exception (msg : string) : M ctl :=
  print (nl ++ "An unexpected error occurred within the planning/execution loop: "
            ++ msg) ;;
  emit ETraceback ;;
  print "Attempting to continue..." ;;
  set_current_plan "" ;;
  set_last_response "" ;;
  ret Continue.

(** One iteration of [while True:]. *)
Definition loop_iteration : M ctl :=
  fun st =>
    match try_body st with
    | (Done c, st') => (Done c, st')
    | (Raised (ModelProviderError msg), st') => on_model_provider_error msg st'
    | (Raised (Exception msg), st') => on_exception msg st'
    end.

(** The [while True:] loop, for at most [fuel] iterations: [Some tt] when
    the loop was left by [break], [None] when the iterations ran out. *)
Fixpoint main_loop (fuel : nat) : M (option unit) :=
  match fuel with
  | O => ret None
  | S n =>
      c <- loop_iteration ;;
      match c with
      | Break => ret (Some tt)
      | Continue => main_loop n
      end
  end.

(** The state in which the loop is entered. *)
Definition initial_state (lines : list string) : state :=
  mkState "" "" None 0 lines [].

End Loop.

End Session.

Import Session.

(** ** Observations on a trace *)

Definition execution_header : string :=
  ("Execute the following organization plan step-by-step using the available tools. "
   ++ "Call the tools exactly as listed." ++ nl ++ nl ++ "Plan:" ++ nl)%string.

(** The plan lines carried by an agent request, when the request is an
    execution prompt. *)
Definition lines_of_request (prompt : string) : list string :=
  if startswith prompt execution_header
  then plan_lines_of (drop (length execution_header) prompt)
  else [].

(** The plan lines handed over for execution in a trace, in order. *)
Fixpoint dispatched_lines (evs : list event) : list string :=
  match evs with
  | [] => []
  | EArun prompt :: rest => lines_of_request prompt ++ dispatched_lines rest
  | _ :: rest => dispatched_lines rest
  end.

(** The prompts of the agent calls in a trace, in order. *)
Fixpoint agent_calls (evs : list event) : list string :=
  match evs with
  | [] => []
  | EArun prompt :: rest => prompt :: agent_calls rest
  | _ :: rest => agent_calls rest
  end.

(** The number of reads of operator input in a trace. *)
Fixpoint inputs_read (evs : list event) : nat :=
  match evs with
  | [] => 0
  | EInput _ :: rest => S (inputs_read rest)
  | _ :: rest => inputs_read rest
  end.

(** The classification tests of the review display. *)
Definition is_create (line : string) : bool := contains "create_directory" line.
Definition is_move (line : string) : bool :=
  negb (contains "create_directory" line) && contains "move_file" line.
Definition is_other (line : string) : bool :=
  negb (contains "create_directory" line) && negb (contains "move_file" line).

(** No create line comes after a move line. *)
Fixpoint creates_first (lines : list string) : bool :=
  match lines with
  | [] => true
  | l :: rest =>
      (if is_move l then negb (existsb is_create rest) else true)
      && creates_first rest
  end.

(** ** Events of the steps of an iteration *)

Definition nl_char : ascii := ascii_of_nat 10.

(** What holds of every line kept by the extraction. *)
Definition kept_line (x : string) : Prop :=
  startswith (lower x) tool_call_prefix = true /\
  occurs nl_char x = false /\
  truthy x = true.

Section Events.

Variable agent : nat -> string -> reply.
Variable base : string.
Variable initial_structure : string.
Variable user_context_input : string.
Variable debug_mode : bool.

Local Abbreviation proposal :=
  (proposal_prompt base initial_structure user_context_input).

(** Events of a successful proposal step. *)
Definition propose_events (response : string) : list event :=
  [EPrint (nl ++ "Asking agent to propose an organization plan...");
   EPrint "(This may take a while for large directory structures...)";
   EArun proposal]
  ++ (if debug_mode then
        [EPrint (nl ++ "--- Proposed Plan (Raw Agent Response) ---");
         EPrint response;
         EPrint "-------------------------------------------"]
      else [])
  ++ match extract_plan_lines response with
     | [] => [EPrint "Warning: Could not extract any 'call tool...' lines from the plan."]
     | _ => []
     end.

(** Events of a proposal step whose agent call raises. *)
Definition propose_failed_events : list event :=
  [EPrint (nl ++ "Asking agent to propose an organization plan...");
   EPrint "(This may take a while for large directory structures...)";
   EArun proposal].

(** What the display step prints in a state. *)
Definition display_lines (st : state) : list string :=
  if truthy (current_plan st) then render_plan (current_plan st)
  else if truthy (last_response st)
       then [(nl ++ "No actionable plan steps extracted from the agent's proposal.")%string]
       else [].

(** Events of a completed execution step. *)
Definition execute_events (plan result : string) : list event :=
  [EPrint (nl ++ "Executing the plan...");
   EArun (execution_prompt_of plan);
   EPrint (nl ++ "--- Execution Result ---");
   EPrint result;
   EPrint "-----------------------";
   EPrint (nl ++ "Organization complete (or attempted). Please check the directory: "
              ++ base)].

(** Events and final state of the two handlers. *)
Definition rate_limit_events : list event :=
  [EPrint (nl ++ "Error: API Rate Limit Hit (429). Please wait while I pause...");
   EPrint "Pausing for 65 seconds before allowing retry...";
   ESleep 65;
   EPrint "Pause complete. You can retry the last action."].

Definition keeps_plan (st : state) : bool :=
  contains "Executing the plan"
    (match execution_prompt st with Some p => p | None => "" end).

(** Events that a handler appends for an exception. *)
Definition handler_events (e : exn) : list event :=
  match e with
  | ModelProviderError msg =>
      if is_rate_limit msg then rate_limit_events
      else [EPrint (nl ++ "Error communicating with the model provider: " ++ msg);
            EPrint "Exiting loop due to unexpected model error."]
  | Exception msg =>
      [EPrint (nl ++ "An unexpected error occurred within the planning/execution loop: "
                  ++ msg);
       ETraceback;
       EPrint "Attempting to continue..."]
  end.

Definition handler_ctl (e : exn) : ctl :=
  match e with
  | ModelProviderError msg => if is_rate_limit msg then Continue else Break
  | Exception _ => Continue
  end.

Definition resets (st : state) (e : exn) : bool :=
  match e with
  | ModelProviderError msg => is_rate_limit msg && negb (keeps_plan st)
  | Exception _ => true
  end.

Definition revise_events (u response : string) : list event :=
  [EPrint (nl ++ "Asking agent to revise the plan based on feedback...");
   EArun (revision_prompt_of u)]
  ++ (if debug_mode then
        [EPrint (nl ++ "--- Revised Plan Proposal Received (Raw) ---");
         EPrint response;
         EPrint "-----------------------------------------------"]
      else []).

(** Events that follow the operator's answer [u] in a state with a plan:
    those of the step chosen by [handle] and, when its agent call raises,
    of the handler. *)
Definition call_events (announce prompt : string) (n : nat)
  (done : string -> list event) : list event :=
  match agent n prompt with
  | Content text => done text
  | Fails e => [EPrint announce; EArun prompt] ++ handler_events e
  end.

Definition reaction_events (st : state) (u : string) : list event :=
  if u =? "yes" then
    call_events (nl ++ "Executing the plan...")
      (execution_prompt_of (current_plan st)) (calls st)
      (execute_events (current_plan st))
  else if u =? "no" then [EPrint "Exiting without organizing."]
  else
    call_events (nl ++ "Asking agent to revise the plan based on feedback...")
      (revision_prompt_of u) (calls st) (revise_events u).

Definition review_events (st : state) : list event :=
  map EPrint (render_plan (current_plan st)) ++ [EInput review_prompt].

End Events.

(** ** The spec's reading of a tool-invocation line *)

Fixpoint take_until (c : ascii) (s : string) : string :=
  match s with
  | "" => ""
  | String a t => if Ascii.eqb a c then "" else String a (take_until c t)
  end.

(** Second definition, following the spec's words (a recognized prefix
    followed by a tool name and an argument payload): the tool named by a
    line is the quoted name after the prefix.  The source has no such
    function; it is used to state the spec's classification only. *)
Definition spec_named_tool (line : string) : string :=
  match split1 "'" line with
  | [_; after] => take_until "'" after
  | _ => ""
  end.

Definition spec_recognized_tool (name : string) : bool :=
  (name =? "create_directory") || (name =? "move_file").

(** ** Concrete sessions *)

Module Demo.

Definition base : string := "/home/u/docs".
Definition listing : string := "[FILE] a.jpg".

Definition create_line : string :=
  "call tool 'create_directory' with args {'path': 'Images'}".
Definition move_line : string :=
  "call tool 'move_file' with args {'source': 'a.jpg', 'destination': 'Images/a.jpg'}".
Definition escape_line : string :=
  "call tool 'move_file' with args {'source': 'a.jpg', 'destination': '../../etc/a.jpg'}".
Definition odd_line : string :=
  "call tool 'frobnicate' with args {'path': 'create_directory_backup'}".

(** A proposal that lists the move before the directory it moves into. *)
Definition move_first : string :=
  ("Here is the plan." ++ nl ++ "PLAN:" ++ nl ++ move_line ++ nl ++ create_line)%string.

(** A proposal in the order the instructions ask for. *)
Definition create_first : string :=
  ("PLAN:" ++ nl ++ create_line ++ nl ++ move_line ++ nl ++ "notes: done")%string.

Definition escaping : string := ("PLAN:" ++ nl ++ escape_line)%string.

(** An agent that answers the first call with [response], later ones with
    [later]. *)
Definition agent_saying (response : string) (later : reply) (n : nat)
  (prompt : string) : reply :=
  match n with
  | O => Content response
  | S _ => later
  end.

(** An agent whose first call hits the rate limit. *)
Definition agent_rate_limited (n : nat) (prompt : string) : reply :=
  match n with
  | O => Fails (ModelProviderError "429 Too Many Requests")
  | S _ => Content create_first
  end.

Definition proposal : string := proposal_prompt base listing "".

(** One iteration of the loop. *)
Definition iterate (agent : nat -> string -> reply) : M ctl :=
  loop_iteration agent base listing "" false.

(** The state at the end of the loop run for at most [fuel] iterations. *)
Definition run (agent : nat -> string -> reply) (fuel : nat)
  (lines : list string) : outcome (option unit) * state :=
  main_loop agent base listing "" false fuel (initial_state lines).

(** A state that holds the plan of [create_first], with the operator's
    pending lines. *)
Definition reviewing (lines : list string) : state :=
  mkState (extract_plan create_first) create_first None 1 lines [].

End Demo.

(** Seconds slept in a trace. *)
Fixpoint slept (evs : list event) : nat :=
  match evs with
  | [] => 0
  | ESleep seconds :: rest => seconds + slept rest
  | _ :: rest => slept rest
  end.

(** ** The initial listing (before the loop) *)

Module Listing.

(** The Python values that the listing code tells apart: strings, lists,
    dictionaries with string keys, and any other object, given by the
    text that [str()] returns for it. *)
#[local] Set Warnings "-register-all".
Inductive pyval : Type :=
| VStr (s : string)
| VList (items : list pyval)
| VDict (entries : list (string * pyval))
| VObj (text : string).

(** The object returned by [organizer_agent.arun]: its [tools] and
    [content] attributes when it has them, and the texts of [str()],
    [vars()] and [dir()] of it. *)
Record response : Type := mkResponse {
  tools : option pyval;
  content : option pyval;
  as_text : string;
  vars_text : string;
  dir_text : string
}.

Inductive listing_reply : Type :=
| Responds (r : response)
| Throws (e : exn).

(** How the listing step leaves: with the structure text for the loop, by
    [return], or with an exception that reaches the outer handler of
    [main]. *)
Inductive listing_result : Type :=
| Listed (initial_structure : string)
| Returns
| Propagates.

Definition initial_structure_prompt : string :=
  "CRITICAL: Use the tool 'list_directory' with the EXACT argument {{ 'path': '.' }} NOW. Do not use any other tool or path.".

(** [d.get(key)] and [key in d] *)
Fixpoint lookup (key : string) (entries : list (string * pyval)) : option pyval :=
  match entries with
  | [] => None
  | (k, v) :: rest => if k =? key then Some v else lookup key rest
  end.

Section WithRepr.

(** [str()] of a list or a dictionary. *)
Variable repr : pyval -> string.

Definition py_str (v : pyval) : string :=
  match v with
  | VStr s => s
  | VObj text => text
  | _ => repr v
  end.

(** [first_tool_result.get('tool_name') == 'list_directory'] *)
Definition names_list_directory (entries : list (string * pyval)) : bool :=
  match lookup "tool_name" entries with
  | Some (VStr name) => name =? "list_directory"
  | _ => false
  end.

(** The value given to [initial_structure] and the warning printed, from
    a response. *)
Definition pick_structure (r : response) : pyval * list event :=
  match tools r with
  | Some (VList (first_tool_result :: _)) =>
      match first_tool_result with
      | VDict entries =>
          if names_list_directory entries then
            match lookup "content" entries with
            | Some (VList (item :: _)) => (VStr (py_str item), [])
            | Some (VStr raw_content) => (VStr raw_content, [])
            | Some _ =>
                (VStr "",
                 [EPrint "Warning: list_directory tool content format unexpected."])
            | None =>
                (VStr "", [EPrint "Warning: First tool result structure unexpected."])
            end
          else (VStr "", [EPrint "Warning: First tool result structure unexpected."])
      | _ => (VStr "", [EPrint "Warning: First tool result structure unexpected."])
      end
  | _ =>
      (match content r with
       | Some v => v
       | None => VStr (as_text r)
       end,
       [EPrint "Warning: No tool results found in response. Using agent's text content."])
  end.

(** The report of the structure and the test [if not
    initial_structure.strip()]; [strip] of a value that is not a string
    raises [AttributeError]. *)
Definition report_structure (v : pyval) : list event * listing_result :=
  let shown :=
    [EPrint "--- Initial Structure (as reported by agent) ---";
     EPrint (py_str v);
     EPrint "--------------------------------------------------"] in
  match v with
  | VStr s =>
      if truthy (strip s) then (shown, Listed s)
      else
        (shown ++
         [EPrint (nl ++ "The directory appears empty or agent failed to provide structure. Nothing to organize. Exiting.")],
         Returns)
  | _ => (shown, Propagates)
  end.

(** The listing step of [main], from the agent's reply to the listing
    prompt. *)
Definition initial_listing (debug_mode : bool) (reply : listing_reply)
  : list event * listing_result :=
  let asked :=
    [EPrint (nl ++ "Asking agent to list initial file structure...");
     EArun initial_structure_prompt] in
  match reply with
  | Responds r =>
      let debug :=
        if debug_mode then
          [EPrint (nl ++ "DEBUG: Full RunResponse object:");
           EPrint (vars_text r);
           EPrint "DEBUG: Attributes of RunResponse object:";
           EPrint (dir_text r)]
        else [] in
      let (v, warning) := pick_structure r in
      let (shown, result) := report_structure v in
      (asked ++ debug ++ warning ++ shown, result)
  | Throws (ModelProviderError msg) =>
      (asked ++
       [EPrint (if is_rate_limit msg
                then nl ++ "Error: API Rate Limit Hit during initial listing. Please wait a minute and try again."
                else nl ++ "Error communicating with model provider during initial listing: " ++ msg)],
       Returns)
  | Throws (Exception _) => (asked, Propagates)
  end.

End WithRepr.

End Listing.

Import Listing.

(** ** Further concrete data *)

Module Samples.

Definition no_lookup (name : string) : option string := None.
Definition only_docs (p : string) : bool := p =? "/home/u/docs".
Definition entered : list string := ["/etc"; "~/docs"; "later"].

(** An agent that cannot be reached, and one that is always rate
    limited. *)
Definition agent_down (n : nat) (prompt : string) : reply :=
  Fails (ModelProviderError "connection refused").
Definition agent_throttled (n : nat) (prompt : string) : reply :=
  Fails (ModelProviderError "429 Too Many Requests").

(** An agent whose second call, the execution call of the first
    iteration, raises, and that answers with a plan otherwise. *)
Definition agent_failing_execution (n : nat) (prompt : string) : reply :=
  match n with
  | 1 => Fails (Exception "tool call failed")
  | _ => Content Demo.create_first
  end.

(** An agent that always answers with the same text. *)
Definition agent_repeating (text : string) (n : nat) (prompt : string) : reply :=
  Content text.

Definition plain_repr (v : Listing.pyval) : string := "[...]".

Definition tool_result : Listing.pyval :=
  Listing.VDict
    [("tool_name", Listing.VStr "list_directory");
     ("content", Listing.VList [Listing.VStr "[FILE] a.jpg"])].

(** A response with a tool result, and one with text only. *)
Definition with_tools (text : string) : Listing.response :=
  Listing.mkResponse (Some (Listing.VList [tool_result]))
    (Some (Listing.VStr text)) text "" "".
Definition text_only (text : string) : Listing.response :=
  Listing.mkResponse None (Some (Listing.VStr text)) text "" "".

End Samples.

(** * Facts about the string primitives *)

Section StringFacts.

Lemma append_empty_r (s : string) : (s ++ "")%string = s.
Proof. induction s as [|a s IH]; simpl; [reflexivity | now rewrite IH]. Qed.

Lemma append_assoc (a b c : string) :
  ((a ++ b) ++ c)%string = (a ++ (b ++ c))%string.
Proof. induction a as [|x a IH]; simpl; [reflexivity | now rewrite IH]. Qed.

Lemma startswith_append (p r : string) : startswith (p ++ r) p = true.
Proof.
  induction p as [|a p IH]; simpl; [reflexivity|].
  now rewrite Ascii.eqb_refl.
Qed.

Lemma startswith_split (p s : string) :
  startswith s p = true -> s = (p ++ drop (length p) s)%string.
Proof.
  revert s; induction p as [|a p IH]; intros s H; simpl.
  - reflexivity.
  - destruct s as [|b s]; simpl in H; [discriminate|].
    apply andb_true_iff in H as [E H]. apply Ascii.eqb_eq in E as ->.
    simpl. now rewrite <- IH.
Qed.

Lemma drop_append (p r : string) : drop (length p) (p ++ r) = r.
Proof. induction p as [|a p IH]; simpl; [now destruct r | exact IH]. Qed.

Lemma occurs_append (c : ascii) (a b : string) :
  occurs c (a ++ b) = occurs c a || occurs c b.
Proof.
  induction a as [|x a IH]; simpl; [reflexivity|].
  now rewrite IH, orb_assoc.
Qed.

Lemma split_on_not_nil (c : ascii) (s : string) : split_on c s <> [].
Proof.
  induction s as [|a s IH]; simpl; [discriminate|].
  destruct (Ascii.eqb a c); [discriminate|].
  destruct (split_on c s); discriminate.
Qed.

Lemma split_on_free (c : ascii) (s : string) :
  Forall (fun x => occurs c x = false) (split_on c s).
Proof.
  induction s as [|a s IH]; simpl.
  - constructor; [reflexivity | constructor].
  - destruct (Ascii.eqb a c) eqn:E.
    + constructor; [reflexivity | exact IH].
    + destruct (split_on c s) as [|h r]; inversion IH; subst;
        constructor; simpl; rewrite ?E; auto.
Qed.

Lemma split_on_whole (c : ascii) (s : string) :
  occurs c s = false -> split_on c s = [s].
Proof.
  induction s as [|a s IH]; simpl; intros H; [reflexivity|].
  apply orb_false_iff in H as [E H]. rewrite E, (IH H). reflexivity.
Qed.

Lemma split_on_cut (c : ascii) (x rest : string) :
  occurs c x = false ->
  split_on c (x ++ String c rest) = x :: split_on c rest.
Proof.
  induction x as [|a x IH]; simpl; intros H.
  - now rewrite Ascii.eqb_refl.
  - apply orb_false_iff in H as [E H]. rewrite E, (IH H). reflexivity.
Qed.

(** Splitting undoes joining, for parts free of the separator. *)
Lemma split_on_join (c : ascii) (parts : list string) :
  parts <> [] ->
  Forall (fun x => occurs c x = false) parts ->
  split_on c (join (String c "") parts) = parts.
Proof.
  intros Hne Hfree. induction Hfree as [|x l Hx Hl IH]; [now elim Hne|].
  destruct l as [|y l].
  - simpl. now apply split_on_whole.
  - change (join (String c "") (x :: y :: l))
      with (x ++ String c (join (String c "") (y :: l)))%string.
    rewrite split_on_cut by exact Hx.
    rewrite IH by discriminate. reflexivity.
Qed.

Lemma occurs_lstrip (c : ascii) (s : string) :
  occurs c s = false -> occurs c (lstrip s) = false.
Proof.
  induction s as [|a s IH]; simpl; intros H; [reflexivity|].
  apply orb_false_iff in H as [E H].
  destruct (is_space a); [now apply IH | simpl; now rewrite E, H].
Qed.

Lemma occurs_rstrip (c : ascii) (s : string) :
  occurs c s = false -> occurs c (rstrip s) = false.
Proof.
  induction s as [|a s IH]; simpl; intros H; [reflexivity|].
  apply orb_false_iff in H as [E H]. specialize (IH H).
  destruct (rstrip s) as [|b r].
  - destruct (is_space a); simpl; [reflexivity | now rewrite E].
  - simpl in *. now rewrite E, IH.
Qed.

Lemma occurs_strip (c : ascii) (s : string) :
  occurs c s = false -> occurs c (strip s) = false.
Proof. intros H. unfold strip. now apply occurs_rstrip, occurs_lstrip. Qed.

Lemma lower_length (s : string) : length (lower s) = length s.
Proof. induction s as [|a s IH]; simpl; [reflexivity | now rewrite IH]. Qed.

Lemma lower_char_idem (c : ascii) : lower_char (lower_char c) = lower_char c.
Proof.
  destruct c as [[] [] [] [] [] [] [] []]; reflexivity.
Qed.

Lemma lower_idem (s : string) : lower (lower s) = lower s.
Proof.
  induction s as [|a s IH]; simpl; [reflexivity|].
  now rewrite IH, lower_char_idem.
Qed.

Lemma is_space_lower (c : ascii) : is_space (lower_char c) = is_space c.
Proof.
  destruct c as [[] [] [] [] [] [] [] []]; reflexivity.
Qed.

Lemma lstrip_lower (s : string) : lstrip (lower s) = lower (lstrip s).
Proof.
  induction s as [|a s IH]; simpl; [reflexivity|].
  rewrite is_space_lower. destruct (is_space a); [exact IH | reflexivity].
Qed.

Lemma rstrip_lower (s : string) : rstrip (lower s) = lower (rstrip s).
Proof.
  induction s as [|a s IH]; simpl; [reflexivity|].
  rewrite IH, is_space_lower.
  destruct (rstrip s); simpl; [destruct (is_space a)|]; reflexivity.
Qed.

Lemma strip_lower (s : string) : strip (lower s) = lower (strip s).
Proof. unfold strip. now rewrite lstrip_lower, rstrip_lower. Qed.

Lemma contains_here (needle hay : string) :
  startswith hay needle = true -> contains needle hay = true.
Proof. intros H. destruct hay; cbn [contains]; now rewrite H. Qed.

(** A text contains what it is built around. *)
Lemma contains_middle (pre needle post : string) :
  contains needle (pre ++ needle ++ post) = true.
Proof.
  induction pre as [|a pre IH].
  - cbn [append]. apply contains_here, startswith_append.
  - cbn [append contains]. rewrite IH. apply orb_true_r.
Qed.

End StringFacts.

(** * Facts about the path functions *)

Section PathFacts.

Lemma clean_comp_spec (c : string) :
  clean_comp c = true ->
  truthy c = true /\ (c =? ".") = false /\ (c =? "..") = false /\
  occurs sep_char c = false.
Proof.
  unfold clean_comp. rewrite !andb_true_iff, !negb_true_iff. tauto.
Qed.

Lemma startswith_sep (s : string) :
  startswith s sep = true <-> exists t, s = String "/" t.
Proof.
  unfold sep. split.
  - destruct s as [|a t]; cbn [startswith]; [discriminate|].
    rewrite andb_true_r. intros E. apply Ascii.eqb_eq in E as <-. eauto.
  - intros [t ->]. reflexivity.
Qed.

Lemma clean_not_sep_headed (c rest : string) :
  clean_comp c = true -> startswith (c ++ rest) sep = false.
Proof.
  intros H. apply clean_comp_spec in H as (Ht & _ & _ & Ho).
  destruct c as [|a c]; [discriminate|]. cbn [occurs] in Ho.
  apply orb_false_iff in Ho as [Ha _].
  cbn [append startswith sep]. rewrite andb_true_r, Ascii.eqb_sym. exact Ha.
Qed.

Lemma join_cons (x : string) (l : list string) :
  l <> [] -> join sep (x :: l) = (x ++ String "/" (join sep l))%string.
Proof. destruct l; [now intros [] | reflexivity]. Qed.

Lemma join_not_sep_headed (comps : list string) :
  all_clean comps -> startswith (join sep comps) sep = false.
Proof.
  intros H. destruct H as [|c l Hc Hl]; [reflexivity|].
  destruct l as [|d l].
  - simpl. rewrite <- (append_empty_r c). now apply clean_not_sep_headed.
  - rewrite join_cons by discriminate. now apply clean_not_sep_headed.
Qed.

Lemma join_clean_truthy (c : string) (l : list string) :
  clean_comp c = true -> truthy (join sep (c :: l)) = true.
Proof.
  intros H. apply clean_comp_spec in H as (Ht & _).
  destruct c; [discriminate|]. now destruct l.
Qed.

Lemma all_clean_free (comps : list string) :
  all_clean comps -> Forall (fun x => occurs sep_char x = false) comps.
Proof.
  intros H. eapply Forall_impl; [|exact H].
  intros c Hc. now apply clean_comp_spec in Hc.
Qed.

(** Splitting a joined list of clean components gives it back, but for the
    empty list, whose join splits into one empty string. *)
Lemma split_join_clean (comps : list string) :
  all_clean comps ->
  filter keep_comp (split_on sep_char (join sep comps)) = comps.
Proof.
  intros H. destruct comps as [|c l]; [reflexivity|].
  rewrite (split_on_join sep_char) by (try discriminate; now apply all_clean_free).
  induction H as [|x r Hx Hr IH]; [reflexivity|].
  apply clean_comp_spec in Hx as (Ht & Hd & _). simpl.
  unfold keep_comp at 1. rewrite Ht, Hd. simpl. now rewrite IH.
Qed.

Lemma join_clean_inj (a b : list string) :
  all_clean a -> all_clean b -> join sep a = join sep b -> a = b.
Proof.
  intros Ha Hb H.
  rewrite <- (split_join_clean a Ha), <- (split_join_clean b Hb).
  now rewrite H.
Qed.


Lemma sepfree_clean (c : string) :
  occurs sep_char c = false ->
  (c =? "") = false -> (c =? ".") = false -> (c =? "..") = false ->
  clean_comp c = true.
Proof.
  intros Ho He Hd Hdd. unfold clean_comp. rewrite Ho, Hd, Hdd.
  destruct c; [discriminate | reflexivity].
Qed.

(** In an absolute path the loop of [normpath] keeps a stack of clean
    components. *)
Lemma normpath_loop_clean (k : nat) (comps stack : list string) :
  k <> 0 ->
  Forall (fun x => occurs sep_char x = false) comps ->
  all_clean stack ->
  all_clean (normpath_loop k comps stack).
Proof.
  intros Hk Hfree. revert stack.
  induction Hfree as [|c rest Hc Hrest IH]; intros stack Hs; cbn [normpath_loop].
  - exact Hs.
  - destruct (c =? "") eqn:E1; cbn [orb]; [now apply IH|].
    destruct (c =? ".") eqn:E2; [now apply IH|].
    destruct (c =? "..") eqn:E3; cbn [negb orb].
    + destruct k as [|k]; [now elim Hk|]. cbn [Nat.eqb andb orb].
      destruct stack as [|top stack]; [now apply IH|].
      inversion Hs as [|? ? Htop Hstack]; subst.
      destruct (clean_comp_spec top Htop) as (_ & _ & -> & _).
      apply IH. exact Hstack.
    + apply IH. constructor; [|exact Hs]. now apply sepfree_clean.
Qed.

(** Clean components are all pushed. *)
Lemma normpath_loop_push (k : nat) (comps stack : list string) :
  k <> 0 -> all_clean comps -> all_clean stack ->
  normpath_loop k comps stack = rev comps ++ stack.
Proof.
  intros Hk Hc. revert stack.
  induction Hc as [|c rest Hc Hrest IH]; intros stack Hs; cbn [normpath_loop rev app].
  - reflexivity.
  - destruct (clean_comp_spec c Hc) as (Ht & Hd & Hdd & _).
    assert (He : (c =? "") = false) by (destruct c; [discriminate | reflexivity]).
    rewrite He, Hd, Hdd. cbn [orb negb].
    rewrite IH by (constructor; assumption).
    now rewrite <- app_assoc.
Qed.

Lemma normpath_loop_skip (k n : nat) (comps stack : list string) :
  normpath_loop k (repeat "" n ++ comps) stack = normpath_loop k comps stack.
Proof. induction n as [|n IH]; [reflexivity | exact IH]. Qed.

Lemma initial_slashes_abs (q : string) :
  startswith q sep = true -> initial_slashes q = 1 \/ initial_slashes q = 2.
Proof.
  intros H. unfold initial_slashes. rewrite H.
  destruct (_ && _); auto.
Qed.

Lemma all_clean_rev (comps : list string) :
  all_clean comps -> all_clean (rev comps).
Proof. apply Forall_rev. Qed.

Lemma normpath_canonical (q : string) :
  startswith q sep = true ->
  canonical (normpath q) (initial_slashes q) (norm_comps q).
Proof.
  intros H. pose proof (initial_slashes_abs q H) as Hk.
  assert (Hc : all_clean (norm_comps q)).
  { unfold norm_comps. apply all_clean_rev, normpath_loop_clean.
    - destruct Hk as [-> | ->]; discriminate.
    - apply split_on_free.
    - constructor. }
  repeat split; try assumption.
  unfold normpath. apply startswith_sep in H as [t ->].
  cbn [String.eqb].
  destruct Hk as [E | E]; rewrite E; reflexivity.
Qed.


Lemma split_leading_seps (k : nat) (s : string) :
  split_on sep_char (repeat_sep k ++ s) = repeat "" k ++ split_on sep_char s.
Proof.
  induction k as [|k IH]; [reflexivity|].
  change (repeat_sep (S k) ++ s)%string with (String "/" (repeat_sep k ++ s)).
  cbn [split_on repeat app].
  change (Ascii.eqb "/" sep_char) with true. cbn iota. now rewrite IH.
Qed.

Lemma filter_keep_empties (n : nat) (l : list string) :
  filter keep_comp (repeat "" n ++ l) = filter keep_comp l.
Proof. induction n as [|n IH]; [reflexivity | exact IH]. Qed.

Lemma canonical_abs (s : string) (k : nat) (comps : list string) :
  canonical s k comps -> startswith s sep = true.
Proof. intros ([-> | ->] & _ & ->); reflexivity. Qed.

Lemma canonical_comps (s : string) (k : nat) (comps : list string) :
  canonical s k comps -> path_comps s = comps.
Proof.
  intros (_ & Hc & ->). unfold path_comps.
  rewrite split_leading_seps, filter_keep_empties.
  now apply split_join_clean.
Qed.

Lemma startswith_cons (a : ascii) (t p : string) :
  startswith (String a t) (String a p) = startswith t p.
Proof. cbn [startswith]. now rewrite Ascii.eqb_refl. Qed.

Lemma canonical_slashes (s : string) (k : nat) (comps : list string) :
  canonical s k comps -> initial_slashes s = k.
Proof.
  intros (Hk & Hc & ->). pose proof (join_not_sep_headed comps Hc) as Hj.
  unfold initial_slashes, sep in *.
  destruct Hk as [-> | ->].
  - change (repeat_sep 1 ++ join "/" comps)%string
      with (String "/" (join "/" comps)).
    rewrite !startswith_cons, Hj. reflexivity.
  - change (repeat_sep 2 ++ join "/" comps)%string
      with (String "/" (String "/" (join "/" comps))).
    rewrite !startswith_cons, Hj. reflexivity.
Qed.

Lemma canonical_norm_comps (s : string) (k : nat) (comps : list string) :
  canonical s k comps -> norm_comps s = comps.
Proof.
  intros H. pose proof (canonical_slashes s k comps H) as Hs.
  destruct H as (Hk & Hc & ->). unfold norm_comps. rewrite Hs.
  rewrite split_leading_seps, normpath_loop_skip.
  destruct comps as [|c l]; [reflexivity|].
  rewrite (split_on_join sep_char) by (try discriminate; now apply all_clean_free).
  rewrite normpath_loop_push; try assumption; try constructor.
  - now rewrite app_nil_r, rev_involutive.
  - destruct Hk as [-> | ->]; discriminate.
Qed.

(** [normpath] leaves a canonical path as it is. *)
Lemma normpath_fixed (s : string) (k : nat) (comps : list string) :
  canonical s k comps -> normpath s = s.
Proof.
  intros H.
  destruct (normpath_canonical s (canonical_abs s k comps H)) as (_ & _ & E).
  rewrite E, (canonical_slashes s k comps H), (canonical_norm_comps s k comps H).
  now destruct H as (_ & _ & ->).
Qed.

Lemma list_compare_antisym (a b : list string) :
  list_compare a b = CompOpp (list_compare b a).
Proof.
  revert b. induction a as [|x a IH]; intros [|y b]; try reflexivity.
  cbn [list_compare]. rewrite String.compare_antisym.
  destruct (String.compare y x); cbn [CompOpp]; auto.
Qed.

Lemma list_compare_eq (a b : list string) :
  list_compare a b = Eq -> a = b.
Proof.
  revert b. induction a as [|x a IH]; intros [|y b]; try discriminate; auto.
  cbn [list_compare]. destruct (String.compare x y) eqn:E; try discriminate.
  apply String.compare_eq_iff in E as ->. intros H. now rewrite (IH b H).
Qed.

Lemma string_compare_refl (x : string) : String.compare x x = Eq.
Proof.
  pose proof (String.compare_antisym x x) as H.
  destruct (String.compare x x); [reflexivity | discriminate H ..].
Qed.

Lemma prefix_not_greater (a b : list string) :
  comps_prefix a b = true -> list_compare a b <> Gt.
Proof.
  revert b. induction a as [|x a IH]; intros [|y b]; cbn [comps_prefix list_compare];
    try discriminate.
  intros H. apply andb_true_iff in H as [E H]. apply String.eqb_eq in E as ->.
  rewrite string_compare_refl. now apply IH.
Qed.

Lemma comps_prefix_refl (a : list string) : comps_prefix a a = true.
Proof.
  induction a as [|x a IH]; [reflexivity|].
  cbn [comps_prefix]. now rewrite String.eqb_refl.
Qed.

Lemma common_prefix_of_prefix (a b : list string) :
  comps_prefix a b = true -> common_prefix a b = Ok a.
Proof.
  revert b. induction a as [|x a IH]; intros [|y b]; cbn [comps_prefix common_prefix];
    try discriminate; try reflexivity.
  intros H. apply andb_true_iff in H as [E H]. rewrite E, (IH b H). reflexivity.
Qed.

Lemma common_prefix_sound (a b l : list string) :
  common_prefix a b = Ok l ->
  comps_prefix l a = true /\ comps_prefix l b = true.
Proof.
  revert b l. induction a as [|x a IH]; intros b l; cbn [common_prefix].
  - intros [= <-]. now destruct b.
  - destruct b as [|y b]; [discriminate|].
    destruct (x =? y) eqn:E.
    + destruct (common_prefix a b) as [l'|e] eqn:El; [|discriminate].
      intros [= <-]. destruct (IH b l' El) as [H1 H2].
      apply String.eqb_eq in E as <-.
      cbn [comps_prefix]. now rewrite String.eqb_refl, H1, H2.
    + intros [= <-]. auto.
Qed.

Lemma common_prefix_defined (a b : list string) :
  list_compare a b <> Gt -> exists l, common_prefix a b = Ok l.
Proof.
  revert b. induction a as [|x a IH]; intros b H; cbn [common_prefix]; [eauto|].
  destruct b as [|y b]; [now elim H|].
  destruct (x =? y) eqn:E; [|eauto].
  apply String.eqb_eq in E as <-.
  cbn [list_compare] in H. rewrite string_compare_refl in H.
  destruct (IH b H) as [l ->]. eauto.
Qed.

(** The common prefix computed from the smaller and the larger of two
    component lists: never an exception, a prefix of both, and the first
    list itself when that is a prefix of the second. *)
Lemma common_of_min_max (c1 c2 : list string) :
  exists l,
    common_prefix (py_min c1 c2) (py_max c1 c2) = Ok l /\
    comps_prefix l c1 = true /\ comps_prefix l c2 = true /\
    (comps_prefix c1 c2 = true -> l = c1).
Proof.
  unfold py_min, py_max, list_lt.
  pose proof (list_compare_antisym c2 c1) as Ha.
  destruct (list_compare c1 c2) eqn:E; rewrite Ha; cbn [CompOpp].
  - apply list_compare_eq in E as <-. exists c1.
    rewrite common_prefix_of_prefix by apply comps_prefix_refl.
    rewrite comps_prefix_refl. auto.
  - assert (Hn : list_compare c1 c2 <> Gt) by (rewrite E; discriminate).
    destruct (common_prefix_defined c1 c2 Hn) as [l Hl]. exists l.
    destruct (common_prefix_sound _ _ _ Hl) as [H1 H2].
    repeat split; auto. intros Hp.
    rewrite (common_prefix_of_prefix _ _ Hp) in Hl. now injection Hl.
  - assert (Hn : list_compare c2 c1 <> Gt) by (rewrite Ha; discriminate).
    destruct (common_prefix_defined c2 c1 Hn) as [l Hl]. exists l.
    destruct (common_prefix_sound _ _ _ Hl) as [H1 H2].
    repeat split; auto. intros Hp.
    apply prefix_not_greater in Hp. now elim Hp.
Qed.

Lemma all_clean_prefix (l a : list string) :
  comps_prefix l a = true -> all_clean a -> all_clean l.
Proof.
  revert a. induction l as [|x l IH]; intros a H Ha; [constructor|].
  destruct a as [|y a]; [discriminate|]. cbn [comps_prefix] in H.
  apply andb_true_iff in H as [E H]. apply String.eqb_eq in E as ->.
  inversion Ha; subst. constructor; [assumption | now apply (IH a)].
Qed.


Section WithCwd.

Variable cwd : string.
Hypothesis cwd_absolute : startswith cwd sep = true.

Lemma abspath_canonical (p : string) :
  canonical (abspath cwd p) (initial_slashes (abspath cwd p))
    (path_comps (abspath cwd p)).
Proof.
  assert (H : exists q, startswith q sep = true /\ abspath cwd p = normpath q).
  { unfold abspath. destruct (startswith p sep) eqn:E; [eauto|].
    eexists. split; [|reflexivity].
    apply startswith_sep in cwd_absolute as [t ->].
    unfold join2. rewrite E. destruct (_ || _); reflexivity. }
  destruct H as (q & Hq & ->).
  pose proof (normpath_canonical q Hq) as Hc.
  now rewrite (canonical_slashes _ _ _ Hc), (canonical_comps _ _ _ Hc).
Qed.

Lemma abspath_fixed (p : string) : abspath cwd (abspath cwd p) = abspath cwd p.
Proof.
  pose proof (abspath_canonical p) as Hc.
  unfold abspath at 1. rewrite (canonical_abs _ _ _ Hc).
  exact (normpath_fixed _ _ _ Hc).
Qed.

(** What [commonpath] returns for the two resolved paths. *)
Lemma commonpath_resolved (boundary check : string) :
  exists l,
    commonpath (abspath cwd boundary) (abspath cwd check)
    = Ok (sep ++ join sep l)%string /\
    all_clean l /\
    comps_prefix l (path_comps (abspath cwd boundary)) = true /\
    comps_prefix l (path_comps (abspath cwd check)) = true /\
    (comps_prefix (path_comps (abspath cwd boundary))
       (path_comps (abspath cwd check)) = true ->
     l = path_comps (abspath cwd boundary)).
Proof.
  pose proof (abspath_canonical boundary) as Hb.
  pose proof (abspath_canonical check) as Hc.
  destruct (common_of_min_max (path_comps (abspath cwd boundary))
              (path_comps (abspath cwd check))) as (l & Hl & H1 & H2 & H3).
  exists l. unfold commonpath.
  rewrite (canonical_abs _ _ _ Hb), (canonical_abs _ _ _ Hc), Hl.
  repeat split; auto.
  apply (all_clean_prefix l _ H1). now destruct Hb as (_ & ? & _).
Qed.

(** The verdict of the boundary check, in terms of the resolved paths. *)
Lemma within_boundary_iff (check boundary : string) :
  is_path_within_boundary cwd check boundary = true <->
  initial_slashes (abspath cwd boundary) = 1 /\
  comps_prefix (path_comps (abspath cwd boundary))
    (path_comps (abspath cwd check)) = true.
Proof.
  destruct (commonpath_resolved boundary check) as (l & Hcp & Hl & H1 & H2 & H3).
  unfold is_path_within_boundary. rewrite Hcp.
  pose proof (abspath_canonical boundary) as Hb.
  destruct Hb as (Hk & Hclean & Hshape).
  set (bd := path_comps (abspath cwd boundary)) in *.
  rewrite String.eqb_eq. split.
  - intros E. rewrite Hshape in E.
    destruct Hk as [Hk | Hk]; rewrite Hk in E |- *.
    + injection E as E. apply join_clean_inj in E; try assumption.
      split; [reflexivity | now rewrite <- E].
    + injection E as E. pose proof (join_not_sep_headed l Hl) as Hj.
      rewrite E in Hj. discriminate Hj.
  - intros [Hone Hp]. rewrite (H3 Hp). symmetry.
    etransitivity; [exact Hshape|]. now rewrite Hone.
Qed.

End WithCwd.

End PathFacts.


(** * Facts about extraction and rendering *)

Section ExtractionFacts.

Lemma startswith_truthy (s p : string) :
  truthy p = true -> startswith s p = true -> truthy s = true.
Proof.
  destruct p as [|a p]; [discriminate|].
  destruct s; [discriminate | reflexivity].
Qed.

Lemma lower_truthy (s : string) : truthy (lower s) = truthy s.
Proof. now destruct s. Qed.

Lemma is_tool_line_truthy (line : string) :
  is_tool_line line = true -> truthy (strip line) = true.
Proof.
  unfold is_tool_line. intros H.
  rewrite <- lower_truthy. now apply (startswith_truthy _ tool_call_prefix).
Qed.

Lemma tool_lines_kept (text : string) : Forall kept_line (tool_lines text).
Proof.
  unfold tool_lines. apply Forall_forall. intros x Hx.
  apply in_map_iff in Hx as (line & <- & Hin).
  apply filter_In in Hin as [Hin Htool].
  pose proof (split_on_free nl_char text) as Hfree.
  rewrite Forall_forall in Hfree.
  repeat split.
  - exact Htool.
  - now apply occurs_strip, Hfree.
  - now apply is_tool_line_truthy.
Qed.

Lemma extract_plan_lines_kept (response : string) :
  Forall kept_line (extract_plan_lines response).
Proof.
  unfold extract_plan_lines.
  destruct (contains plan_marker response); [apply tool_lines_kept|].
  destruct (contains tool_call_prefix (lower response));
    [apply tool_lines_kept | constructor].
Qed.

(** Splitting the joined plan gives back the kept lines, in order. *)
Lemma plan_lines_of_join (lines : list string) :
  lines <> [] -> Forall kept_line lines ->
  plan_lines_of (join nl lines) = lines.
Proof.
  intros Hne Hk. unfold plan_lines_of. apply (split_on_join nl_char); [exact Hne|].
  eapply Forall_impl; [|exact Hk]. now intros x (_ & H & _).
Qed.

Lemma join_truthy (lines : list string) :
  lines <> [] -> Forall kept_line lines -> truthy (join nl lines) = true.
Proof.
  intros Hne Hk. destruct lines as [|x l]; [now elim Hne|].
  inversion Hk as [|? ? (_ & _ & Hx) _]; subst.
  destruct x; [discriminate|]. destruct l; reflexivity.
Qed.

Lemma extract_plan_nonempty (response : string) :
  extract_plan_lines response <> [] ->
  extract_plan response = join nl (extract_plan_lines response) /\
  truthy (extract_plan response) = true /\
  plan_lines_of (extract_plan response) = extract_plan_lines response.
Proof.
  intros Hne. pose proof (extract_plan_lines_kept response) as Hk.
  unfold extract_plan. destruct (extract_plan_lines response) as [|x l] eqn:E;
    [now elim Hne|].
  repeat split.
  - now apply join_truthy.
  - now apply plan_lines_of_join.
Qed.

(** The display pass is a stable three-way partition. *)
Lemma classify_fold (lines : list string) (g : groups) :
  fold_left classify_step lines g =
  mkGroups (creates g ++ filter is_create lines)
           (moves g ++ filter is_move lines)
           (others g ++ filter is_other lines).
Proof.
  revert g. induction lines as [|x l IH]; intros g; simpl.
  - rewrite !app_nil_r. now destruct g.
  - rewrite IH. unfold classify_step, is_create, is_move, is_other.
    destruct (contains "create_directory" x); simpl.
    + now rewrite <- app_assoc.
    + destruct (contains "move_file" x); simpl; now rewrite <- app_assoc.
Qed.

Lemma classify_filters (plan : string) :
  classify plan =
  mkGroups (filter is_create (plan_lines_of plan))
           (filter is_move (plan_lines_of plan))
           (filter is_other (plan_lines_of plan)).
Proof. unfold classify. now rewrite classify_fold. Qed.

Lemma partition_lengths (lines : list string) :
  List.length (filter is_create lines) + List.length (filter is_move lines)
  + List.length (filter is_other lines) = List.length lines.
Proof.
  induction lines as [|x l IH]; [reflexivity|].
  simpl. unfold is_create, is_move, is_other in *.
  destruct (contains "create_directory" x), (contains "move_file" x);
    simpl; lia.
Qed.

End ExtractionFacts.

(** * Facts about the choice of the directory *)

Section TargetFacts.

Variable cwd : string.
Variable home : string.
Variable pw_dir : string -> option string.
Variable isdir : string -> bool.
Variable top_level_path_config : string.
Variable default_target_dir_config : string.

Local Abbreviation check :=
  (check_candidate cwd home pw_dir isdir top_level_path_config).
Local Abbreviation top :=
  (resolved_top_level cwd home pw_dir top_level_path_config).

Lemma check_candidate_accepted (resolved : string) :
  check resolved = Accepted ->
  isdir resolved = true /\ is_path_within_boundary cwd resolved top = true.
Proof.
  unfold check_candidate.
  destruct (isdir resolved); simpl; [|discriminate].
  destruct (is_path_within_boundary cwd resolved top); simpl;
    [auto | discriminate].
Qed.

Lemma prompt_target_accepted (lines remaining : list string) (target : string) :
  prompt_target cwd home pw_dir isdir top_level_path_config lines
  = Some (target, remaining) ->
  check target = Accepted.
Proof.
  induction lines as [|user_path rest IH]; simpl; [discriminate|].
  destruct (check (resolve cwd home pw_dir user_path)) eqn:E; auto.
  intros [= <- _]. exact E.
Qed.

(** The directory given to [ALLOWED_BASE_PATH_STR] is a directory inside
    the resolved top-level path. *)
Lemma determine_target_within (lines remaining : list string) (target : string) :
  determine_target cwd home pw_dir isdir top_level_path_config
    default_target_dir_config lines = Some (target, remaining) ->
  isdir target = true /\ is_path_within_boundary cwd target top = true.
Proof.
  unfold determine_target, default_target. intros H.
  apply check_candidate_accepted.
  destruct (truthy default_target_dir_config).
  - destruct (check (resolve cwd home pw_dir default_target_dir_config)) eqn:E;
      try (now apply prompt_target_accepted in H).
    now injection H as <- _.
  - now apply prompt_target_accepted in H.
Qed.

Lemma prompt_target_resolved (lines remaining : list string) (target : string) :
  prompt_target cwd home pw_dir isdir top_level_path_config lines
  = Some (target, remaining) ->
  exists p, target = abspath cwd (expanduser home pw_dir p).
Proof.
  induction lines as [|user_path rest IH]; simpl; [discriminate|].
  destruct (check (resolve cwd home pw_dir user_path)); auto.
  intros [= <- _]. unfold resolve. eauto.
Qed.

(** The chosen directory is a configured or entered path, with [~]
    expanded and then resolved by [abspath]. *)
Lemma determine_target_resolved (lines remaining : list string) (target : string) :
  determine_target cwd home pw_dir isdir top_level_path_config
    default_target_dir_config lines = Some (target, remaining) ->
  exists p, target = abspath cwd (expanduser home pw_dir p).
Proof.
  unfold determine_target, default_target. intros H.
  destruct (truthy default_target_dir_config).
  - destruct (check (resolve cwd home pw_dir default_target_dir_config));
      try (now apply prompt_target_resolved in H).
    injection H as <- _. unfold resolve. eauto.
  - now apply prompt_target_resolved in H.
Qed.

(** C4: the check resolves both of its arguments with [abspath]: giving
    it the resolved paths changes nothing, and the resolved paths are
    absolute and made of components that are neither empty, [.] nor [..].
    It does not expand [~]; that is done by [main], which passes the check
    paths that went through [expanduser] and [abspath]. *)
Theorem guard_resolves_with_abspath
  (lines remaining : list string) (target check_path boundary : string)
  (Habs : startswith cwd sep = true)
  (Hsel : determine_target cwd home pw_dir isdir top_level_path_config
            default_target_dir_config lines = Some (target, remaining)) :
  is_path_within_boundary cwd check_path boundary =
    is_path_within_boundary cwd (abspath cwd check_path) (abspath cwd boundary) /\
  startswith (abspath cwd check_path) sep = true /\
  startswith (abspath cwd boundary) sep = true /\
  all_clean (path_comps (abspath cwd check_path)) /\
  all_clean (path_comps (abspath cwd boundary)) /\
  exists p,
    target = abspath cwd (expanduser home pw_dir p) /\
    is_path_within_boundary cwd (abspath cwd (expanduser home pw_dir p))
      (abspath cwd (expanduser home pw_dir top_level_path_config)) = true.
Proof.
  pose proof (abspath_canonical cwd Habs check_path) as Hc.
  pose proof (abspath_canonical cwd Habs boundary) as Hb.
  split.
  { unfold is_path_within_boundary. now rewrite !abspath_fixed. }
  split; [exact (canonical_abs _ _ _ Hc)|].
  split; [exact (canonical_abs _ _ _ Hb)|].
  split; [now destruct Hc as (_ & ? & _)|].
  split; [now destruct Hb as (_ & ? & _)|].
  destruct (determine_target_resolved _ _ _ Hsel) as [p Hp].
  destruct (determine_target_within _ _ _ Hsel) as [_ Hw].
  exists p. split; [exact Hp|]. rewrite <- Hp. exact Hw.
Qed.

End TargetFacts.

(** * Facts about the loop *)

Section LoopFacts.

Variable agent : nat -> string -> reply.
Variable base : string.
Variable initial_structure : string.
Variable user_context_input : string.
Variable debug_mode : bool.

Local Abbreviation proposal :=
  (proposal_prompt base initial_structure user_context_input).
Local Abbreviation iteration :=
  (loop_iteration agent base initial_structure user_context_input debug_mode).
Local Abbreviation body :=
  (try_body agent base initial_structure user_context_input debug_mode).
Local Abbreviation review_step :=
  (review agent base debug_mode).
Local Abbreviation propose_evs :=
  (propose_events base initial_structure user_context_input debug_mode).
Local Abbreviation propose_failed_evs :=
  (propose_failed_events base initial_structure user_context_input).
Local Abbreviation execute_evs := (execute_events base).
Local Abbreviation revise_evs := (revise_events debug_mode).
Local Abbreviation reaction_evs := (reaction_events agent base debug_mode).

Ltac run :=
  unfold add_out; simpl; repeat (rewrite <- app_assoc; simpl); try reflexivity.

Ltac settle :=
  repeat first
    [ progress cbn [current_plan last_response execution_prompt calls stdin out app]
    | rewrite <- app_assoc ];
  try reflexivity.

Lemma print_all_out (texts : list string) (st : state) :
  print_all texts st = (Done tt, add_out st (map EPrint texts)).
Proof.
  revert st. induction texts as [|t l IH]; intros [cp lr ep n i o].
  - unfold add_out; simpl. now rewrite app_nil_r.
  - simpl. unfold bind, print, emit. rewrite IH. run.
Qed.

Lemma propose_content (st : state) (response : string) :
  agent (calls st) proposal = Content response ->
  propose agent base initial_structure user_context_input debug_mode st =
  (Done tt, mkState (extract_plan response) response (execution_prompt st)
              (S (calls st)) (stdin st) (out st ++ propose_evs response)).
Proof.
  destruct st as [cp lr ep n i o]; simpl. intros H.
  unfold propose, propose_events, extract_plan, bind, print, emit, arun, when,
    set_last_response, set_current_plan, ret; simpl.
  rewrite H. destruct debug_mode; simpl;
    destruct (extract_plan_lines response); run.
Qed.

Lemma propose_fails (st : state) (e : exn) :
  agent (calls st) proposal = Fails e ->
  propose agent base initial_structure user_context_input debug_mode st =
  (Raised e, mkState (current_plan st) (last_response st) (execution_prompt st)
               (S (calls st)) (stdin st) (out st ++ propose_failed_evs)).
Proof.
  destruct st as [cp lr ep n i o]; simpl. intros H.
  unfold propose, propose_failed_events, bind, print, emit, arun; simpl.
  rewrite H. run.
Qed.

Lemma display_out (st : state) :
  display st = (Done tt, add_out st (map EPrint (display_lines st))).
Proof.
  destruct st as [cp lr ep n i o].
  unfold display, display_lines, bind, get_current_plan, get_last_response.
  cbn [current_plan last_response].
  destruct (truthy cp) eqn:E.
  - apply print_all_out.
  - unfold when, print, emit, ret, add_out; simpl.
    destruct (truthy lr); simpl; [reflexivity | now rewrite app_nil_r].
Qed.

Lemma review_out (st : state) (raw : string) (rest : list string) :
  stdin st = raw :: rest ->
  review_step st =
  handle agent base debug_mode (strip (lower raw))
    (mkState (current_plan st) (last_response st) (execution_prompt st)
       (calls st) rest
       (out st ++ map EPrint (display_lines st) ++ [EInput review_prompt])).
Proof.
  intros H. unfold review, bind at 1. rewrite display_out.
  destruct st as [cp lr ep n i o]; simpl in H; subst i.
  unfold bind, input, add_out; simpl. now rewrite <- app_assoc.
Qed.

Lemma review_eof (st : state) :
  stdin st = [] ->
  review_step st =
  (Raised (Exception "EOF when reading a line"),
   mkState (current_plan st) (last_response st) (execution_prompt st)
     (calls st) []
     (out st ++ map EPrint (display_lines st) ++ [EInput review_prompt])).
Proof.
  intros H. unfold review, bind at 1. rewrite display_out.
  destruct st as [cp lr ep n i o]; simpl in H; subst i.
  unfold bind, input, add_out; simpl. now rewrite <- app_assoc.
Qed.

Lemma body_with_plan (st : state) :
  truthy (current_plan st) = true -> body st = review_step st.
Proof.
  intros H. unfold try_body, bind, get_current_plan. rewrite H. reflexivity.
Qed.

Lemma body_without_plan (st : state) :
  truthy (current_plan st) = false ->
  body st =
  bind (propose agent base initial_structure user_context_input debug_mode)
       (fun _ => review_step) st.
Proof.
  intros H. unfold try_body, bind, get_current_plan. rewrite H. reflexivity.
Qed.

Lemma on_rate_limit (st : state) (msg : string) :
  is_rate_limit msg = true ->
  on_model_provider_error msg st =
  (Done Continue,
   mkState (if keeps_plan st then current_plan st else "")
           (if keeps_plan st then last_response st else "")
           (execution_prompt st) (calls st) (stdin st)
           (out st ++ rate_limit_events)).
Proof.
  destruct st as [cp lr ep n i o]. intros H.
  unfold on_model_provider_error, keeps_plan. rewrite H.
  unfold bind, print, emit, sleep, get_execution_prompt, when,
    set_current_plan, set_last_response, ret, add_out; simpl.
  destruct (contains "Executing the plan" match ep with Some p => p | None => "" end);
    simpl; repeat (rewrite <- app_assoc; simpl); reflexivity.
Qed.

Lemma on_provider_error (st : state) (msg : string) :
  is_rate_limit msg = false ->
  on_model_provider_error msg st =
  (Done Break,
   add_out st
     [EPrint (nl ++ "Error communicating with the model provider: " ++ msg);
      EPrint "Exiting loop due to unexpected model error."]).
Proof.
  destruct st as [cp lr ep n i o]. intros H.
  unfold on_model_provider_error. rewrite H.
  unfold bind, print, emit, ret, add_out; simpl.
  repeat (rewrite <- app_assoc; simpl); reflexivity.
Qed.

Lemma on_exception_out (st : state) (msg : string) :
  on_exception msg st =
  (Done Continue,
   mkState "" "" (execution_prompt st) (calls st) (stdin st)
     (out st ++
      [EPrint (nl ++ "An unexpected error occurred within the planning/execution loop: "
                  ++ msg);
       ETraceback;
       EPrint "Attempting to continue..."])).
Proof.
  destruct st as [cp lr ep n i o].
  unfold on_exception, bind, print, emit, set_current_plan, set_last_response,
    ret, add_out; simpl.
  repeat (rewrite <- app_assoc; simpl); reflexivity.
Qed.

(** One statement for what an iteration does once its body has raised. *)
Lemma iteration_raised (st st' : state) (e : exn) :
  body st = (Raised e, st') ->
  iteration st =
  (Done (handler_ctl e),
   mkState (if resets st' e then "" else current_plan st')
           (if resets st' e then "" else last_response st')
           (execution_prompt st') (calls st') (stdin st')
           (out st' ++ handler_events e)).
Proof.
  intros H. unfold loop_iteration. rewrite H.
  destruct e as [msg|msg]; simpl.
  - destruct (is_rate_limit msg) eqn:E.
    + rewrite on_rate_limit by exact E. simpl.
      destruct (keeps_plan st'); reflexivity.
    + rewrite on_provider_error by exact E. now destruct st'.
  - now rewrite on_exception_out.
Qed.

Lemma iteration_done (st st' : state) (c : ctl) :
  body st = (Done c, st') -> iteration st = (Done c, st').
Proof. intros H. unfold loop_iteration. now rewrite H. Qed.

Lemma agent_calls_app (a b : list event) :
  agent_calls (a ++ b) = agent_calls a ++ agent_calls b.
Proof.
  induction a as [|[]]; simpl; try assumption; [reflexivity | now f_equal].
Qed.

Lemma dispatched_lines_app (a b : list event) :
  dispatched_lines (a ++ b) = dispatched_lines a ++ dispatched_lines b.
Proof.
  induction a as [|[]]; simpl; try assumption; [reflexivity|].
  now rewrite IHa, app_assoc.
Qed.

Lemma inputs_read_app (a b : list event) :
  inputs_read (a ++ b) = inputs_read a + inputs_read b.
Proof.
  induction a as [|[]]; simpl; try assumption; [reflexivity | now f_equal].
Qed.

Lemma prints_silent (texts : list string) :
  agent_calls (map EPrint texts) = [] /\
  dispatched_lines (map EPrint texts) = [] /\
  inputs_read (map EPrint texts) = 0.
Proof. induction texts; simpl; auto. Qed.

Lemma handler_events_silent (e : exn) :
  agent_calls (handler_events e) = [] /\
  dispatched_lines (handler_events e) = [] /\
  inputs_read (handler_events e) = 0.
Proof.
  destruct e as [msg|msg]; simpl; [destruct (is_rate_limit msg)|]; simpl; auto.
Qed.

Lemma execution_prompt_header (plan : string) :
  execution_prompt_of plan = (execution_header ++ plan)%string.
Proof. reflexivity. Qed.

Lemma lines_of_execution_prompt (plan : string) :
  lines_of_request (execution_prompt_of plan) = plan_lines_of plan.
Proof.
  rewrite execution_prompt_header. unfold lines_of_request.
  now rewrite startswith_append, drop_append.
Qed.

Lemma lines_of_proposal : lines_of_request proposal = [].
Proof.
  unfold lines_of_request, proposal_prompt.
  destruct (truthy user_context_input); reflexivity.
Qed.

Lemma lines_of_revision (u : string) :
  lines_of_request (revision_prompt_of u) = [].
Proof. reflexivity. Qed.

Local Abbreviation execute_step := (execute agent base).
Local Abbreviation revise_step := (revise agent debug_mode).
Local Abbreviation handle_step := (handle agent base debug_mode).

Lemma execute_content (st : state) (plan result : string) :
  agent (calls st) (execution_prompt_of plan) = Content result ->
  execute_step plan st =
  (Done Break,
   mkState (current_plan st) (last_response st) (Some (execution_prompt_of plan))
     (S (calls st)) (stdin st) (out st ++ execute_evs plan result)).
Proof.
  destruct st as [cp lr ep n i o]; cbn [calls]. intros H.
  unfold execute, execute_events, bind, print, emit, set_execution_prompt, arun,
    ret, add_out.
  cbn [current_plan last_response execution_prompt calls stdin out].
  rewrite H. settle.
Qed.

Lemma execute_fails (st : state) (plan : string) (e : exn) :
  agent (calls st) (execution_prompt_of plan) = Fails e ->
  execute_step plan st =
  (Raised e,
   mkState (current_plan st) (last_response st) (Some (execution_prompt_of plan))
     (S (calls st)) (stdin st)
     (out st ++ [EPrint (nl ++ "Executing the plan...");
                 EArun (execution_prompt_of plan)])).
Proof.
  destruct st as [cp lr ep n i o]; cbn [calls]. intros H.
  unfold execute, bind, print, emit, set_execution_prompt, arun, ret, add_out.
  cbn [current_plan last_response execution_prompt calls stdin out].
  rewrite H. settle.
Qed.

Lemma revise_content (st : state) (u response : string) :
  agent (calls st) (revision_prompt_of u) = Content response ->
  revise_step u st =
  (Done Continue,
   mkState "" response (execution_prompt st) (S (calls st)) (stdin st)
     (out st ++ revise_evs u response)).
Proof.
  destruct st as [cp lr ep n i o]; cbn [calls]. intros H.
  unfold revise, revise_events, bind, print, emit, set_last_response,
    set_current_plan, when, arun, ret, add_out.
  cbn [current_plan last_response execution_prompt calls stdin out].
  rewrite H. destruct debug_mode; settle.
Qed.

Lemma revise_fails (st : state) (u : string) (e : exn) :
  agent (calls st) (revision_prompt_of u) = Fails e ->
  revise_step u st =
  (Raised e,
   mkState (current_plan st) (last_response st) (execution_prompt st)
     (S (calls st)) (stdin st)
     (out st ++ [EPrint (nl ++ "Asking agent to revise the plan based on feedback...");
                 EArun (revision_prompt_of u)])).
Proof.
  destruct st as [cp lr ep n i o]; cbn [calls]. intros H.
  unfold revise, bind, print, emit, arun, add_out.
  cbn [current_plan last_response execution_prompt calls stdin out].
  rewrite H. settle.
Qed.

Lemma handle_approve (st : state) :
  truthy (current_plan st) = true ->
  handle_step "yes" st = execute_step (current_plan st) st.
Proof.
  intros H. unfold handle. cbn [String.eqb Ascii.eqb Bool.eqb].
  unfold bind at 1, get_current_plan. now rewrite H.
Qed.

Lemma handle_approve_no_plan (st : state) :
  truthy (current_plan st) = false ->
  handle_step "yes" st =
  (Done Continue,
   add_out st [EPrint "No valid plan to execute. Please provide feedback or type 'no'."]).
Proof.
  intros H. unfold handle. cbn [String.eqb Ascii.eqb Bool.eqb].
  unfold bind at 1, get_current_plan. now rewrite H.
Qed.

Lemma handle_reject (st : state) :
  handle_step "no" st =
  (Done Break, add_out st [EPrint "Exiting without organizing."]).
Proof. reflexivity. Qed.

Lemma handle_feedback (st : state) (u : string) :
  (u =? "yes") = false -> (u =? "no") = false ->
  handle_step u st = revise_step u st.
Proof. intros H1 H2. unfold handle. now rewrite H1, H2. Qed.

Lemma display_lines_plan (st : state) :
  truthy (current_plan st) = true ->
  display_lines st = render_plan (current_plan st).
Proof. intros H. unfold display_lines. now rewrite H. Qed.

(** The body of an iteration entered with a plan, once the line is read. *)
Lemma body_review (st : state) (raw : string) (rest : list string) :
  truthy (current_plan st) = true ->
  stdin st = raw :: rest ->
  body st =
  handle_step (strip (lower raw))
    (mkState (current_plan st) (last_response st) (execution_prompt st)
       (calls st) rest (out st ++ review_events st)).
Proof.
  intros Hp Hin. rewrite body_with_plan by exact Hp.
  rewrite (review_out st raw rest Hin), display_lines_plan by exact Hp.
  reflexivity.
Qed.

(** Every event of an iteration entered with a plan. *)
Lemma iteration_with_plan (st : state) (raw : string) (rest : list string) :
  truthy (current_plan st) = true ->
  stdin st = raw :: rest ->
  out (snd (iteration st)) =
  out st ++ review_events st ++ reaction_evs st (strip (lower raw)).
Proof.
  intros Hp Hin. pose proof (body_review st raw rest Hp Hin) as Hb.
  set (u := strip (lower raw)) in *.
  set (st1 := mkState _ _ _ _ _ _) in Hb.
  assert (Hp1 : truthy (current_plan st1) = true) by exact Hp.
  unfold reaction_events, call_events.
  destruct (u =? "yes") eqn:Ey.
  - apply String.eqb_eq in Ey. rewrite Ey, handle_approve in Hb by exact Hp1.
    change (calls st) with (calls st1).
    change (current_plan st) with (current_plan st1).
    destruct (agent (calls st1) (execution_prompt_of (current_plan st1))) as [r|e] eqn:Ea.
    + rewrite (execute_content st1 _ r Ea) in Hb.
      rewrite (iteration_done _ _ _ Hb). subst st1. settle.
    + rewrite (execute_fails st1 _ e Ea) in Hb.
      rewrite (iteration_raised _ _ _ Hb). subst st1. settle.
  - destruct (u =? "no") eqn:En.
    + apply String.eqb_eq in En. rewrite En, handle_reject in Hb.
      rewrite (iteration_done _ _ _ Hb). subst st1. unfold add_out. settle.
    + rewrite handle_feedback in Hb by assumption.
      change (calls st) with (calls st1).
      destruct (agent (calls st1) (revision_prompt_of u)) as [r|e] eqn:Ea.
      * rewrite (revise_content st1 _ r Ea) in Hb.
        rewrite (iteration_done _ _ _ Hb). subst st1. settle.
      * rewrite (revise_fails st1 _ e Ea) in Hb.
        rewrite (iteration_raised _ _ _ Hb). subst st1. settle.
Qed.

Lemma propose_events_obs (response : string) :
  agent_calls (propose_evs response) = [proposal] /\
  dispatched_lines (propose_evs response) = [] /\
  inputs_read (propose_evs response) = 0.
Proof.
  unfold propose_events. cbn [app agent_calls dispatched_lines inputs_read].
  rewrite lines_of_proposal.
  destruct debug_mode, (extract_plan_lines response); auto.
Qed.

Lemma review_events_obs (st : state) :
  agent_calls (review_events st) = [] /\
  dispatched_lines (review_events st) = [] /\
  inputs_read (review_events st) = 1.
Proof.
  unfold review_events.
  rewrite agent_calls_app, dispatched_lines_app, inputs_read_app.
  destruct (prints_silent (render_plan (current_plan st))) as (-> & -> & ->).
  auto.
Qed.

Lemma reaction_events_calls (st : state) (u : string) :
  agent_calls (reaction_evs st u) =
  if u =? "yes" then [execution_prompt_of (current_plan st)]
  else if u =? "no" then []
  else [revision_prompt_of u].
Proof.
  unfold reaction_events, call_events.
  destruct (u =? "yes"); [|destruct (u =? "no"); [reflexivity|]].
  - destruct (agent _ _) as [r|e]; [reflexivity|].
    cbn [app agent_calls]. now destruct (handler_events_silent e) as (-> & _).
  - destruct (agent _ _) as [r|e].
    + unfold revise_events. now destruct debug_mode.
    + cbn [app agent_calls]. now destruct (handler_events_silent e) as (-> & _).
Qed.

Lemma reaction_events_dispatch (st : state) (u : string) :
  dispatched_lines (reaction_evs st u) =
  if u =? "yes" then plan_lines_of (current_plan st) else [].
Proof.
  unfold reaction_events, call_events.
  destruct (u =? "yes"); [|destruct (u =? "no"); [reflexivity|]].
  - destruct (agent _ _) as [r|e]; cbn [app dispatched_lines execute_events];
      rewrite lines_of_execution_prompt.
    + now rewrite app_nil_r.
    + destruct (handler_events_silent e) as (_ & -> & _). now rewrite app_nil_r.
  - destruct (agent _ _) as [r|e].
    + unfold revise_events. now destruct debug_mode.
    + cbn [app dispatched_lines]. rewrite lines_of_revision.
      now destruct (handler_events_silent e) as (_ & -> & _).
Qed.

Lemma main_loop_break (st st' : state) (fuel : nat) :
  iteration st = (Done Break, st') ->
  main_loop agent base initial_structure user_context_input debug_mode (S fuel) st
  = (Done (Some tt), st').
Proof. intros H. cbn [main_loop]. unfold bind. now rewrite H. Qed.

Lemma main_loop_continue (st st' : state) (fuel : nat) :
  iteration st = (Done Continue, st') ->
  main_loop agent base initial_structure user_context_input debug_mode (S fuel) st
  = main_loop agent base initial_structure user_context_input debug_mode fuel st'.
Proof. intros H. cbn [main_loop]. unfold bind. now rewrite H. Qed.

(** The body of an iteration whose review step reads the rejection. *)
Lemma review_reject (st : state) (raw : string) (rest : list string) :
  stdin st = raw :: rest ->
  strip (lower raw) = "no" ->
  review_step st =
  (Done Break,
   mkState (current_plan st) (last_response st) (execution_prompt st)
     (calls st) rest
     (out st ++ map EPrint (display_lines st)
             ++ [EInput review_prompt; EPrint "Exiting without organizing."])).
Proof.
  intros Hin Hno. rewrite (review_out st raw rest Hin), Hno, handle_reject.
  unfold add_out. settle.
Qed.

(** An iteration is a function of the outcome of its body. *)
Lemma iteration_same_body (st1 st2 : state) :
  body st1 = body st2 -> iteration st1 = iteration st2.
Proof. intros H. unfold loop_iteration. now rewrite H. Qed.

(** After a proposal with extractable lines, the iteration goes on as one
    entered with the extracted plan. *)
Lemma iteration_after_proposal (st : state) (response : string) :
  truthy (current_plan st) = false ->
  agent (calls st) proposal = Content response ->
  truthy (extract_plan response) = true ->
  iteration st =
  iteration (mkState (extract_plan response) response (execution_prompt st)
               (S (calls st)) (stdin st) (out st ++ propose_evs response)).
Proof.
  intros Hp Ha Ht. apply iteration_same_body.
  rewrite (body_without_plan st Hp). unfold bind at 1.
  rewrite (propose_content st response Ha).
  now rewrite body_with_plan by exact Ht.
Qed.

(** The iteration that reads the rejection token (any casing, surrounding
    blanks allowed) ends the loop; the only agent call it can contain is
    the proposal request that precedes the prompt, it hands no plan line
    over for execution, and nothing but the farewell message follows the
    answer. *)
Lemma reject_ends_without_dispatch
  (st : state) (raw : string) (rest : list string) (fuel : nat)
  (Hreach : truthy (current_plan st) = true \/
            exists r, agent (calls st) proposal = Content r)
  (Hin : stdin st = raw :: rest)
  (Hno : strip (lower raw) = "no") :
  exists st' evs,
    main_loop agent base initial_structure user_context_input debug_mode
      (S fuel) st = (Done (Some tt), st') /\
    out st' = out st ++ evs
              ++ [EInput review_prompt; EPrint "Exiting without organizing."] /\
    dispatched_lines
      (evs ++ [EInput review_prompt; EPrint "Exiting without organizing."]) = [] /\
    (agent_calls evs = [] \/ agent_calls evs = [proposal]) /\
    inputs_read evs = 0 /\
    stdin st' = rest /\
    execution_prompt st' = execution_prompt st.
Proof.
  destruct (truthy (current_plan st)) eqn:Hp.
  - pose proof (review_reject st raw rest Hin Hno) as Hr.
    rewrite <- (body_with_plan st Hp) in Hr. apply iteration_done in Hr.
    eexists _, (map EPrint (display_lines st)).
    split; [apply main_loop_break; exact Hr|].
    destruct (prints_silent (display_lines st)) as (Hc & Hd & Hi).
    cbn [out stdin execution_prompt].
    rewrite dispatched_lines_app, Hd. repeat split; auto.
  - destruct Hreach as [Hf | [r Ha]]; [discriminate|].
    set (st1 := mkState (extract_plan r) r (execution_prompt st)
                  (S (calls st)) (stdin st) (out st ++ propose_evs r)).
    pose proof (review_reject st1 raw rest Hin Hno) as Hr.
    assert (Hb : body st = review_step st1).
    { rewrite (body_without_plan st Hp). unfold bind at 1.
      now rewrite (propose_content st r Ha). }
    rewrite <- Hb in Hr. apply iteration_done in Hr.
    eexists _, (propose_evs r ++ map EPrint (display_lines st1)).
    split; [apply main_loop_break; exact Hr|].
    destruct (prints_silent (display_lines st1)) as (Hc & Hd & Hi).
    destruct (propose_events_obs r) as (Hc' & Hd' & Hi').
    cbn [out stdin execution_prompt st1].
    rewrite !dispatched_lines_app, agent_calls_app, inputs_read_app.
    rewrite Hc, Hd, Hi, Hc', Hd', Hi', <- !app_assoc.
    repeat split; auto.
Qed.

Lemma normalised_is_lower (raw : string) :
  lower (strip (lower raw)) = strip (lower raw).
Proof. now rewrite <- strip_lower, lower_idem. Qed.

(** C10: the operator's line is lowercased and stripped before it is
    classified; the iteration depends on the line only through that form;
    'yes' leads to the execution request, 'no' to no agent call, and any
    other text to a revision request; the revision prompt is the fixed
    wording around the lowercased, stripped text, which it contains as it
    is and in which no upper-case letter is left. *)
Theorem review_input_normalised
  (st : state) (raw : string) (rest : list string)
  (Hp : truthy (current_plan st) = true)
  (Hin : stdin st = raw :: rest) :
  let u := strip (lower raw) in
  lower u = u /\
  body st =
    handle_step u
      (mkState (current_plan st) (last_response st) (execution_prompt st)
         (calls st) rest (out st ++ review_events st)) /\
  out (snd (iteration st)) = out st ++ review_events st ++ reaction_evs st u /\
  agent_calls (review_events st ++ reaction_evs st u) =
    (if u =? "yes" then [execution_prompt_of (current_plan st)]
     else if u =? "no" then []
     else [revision_prompt_of u]) /\
  (forall raw' : string,
      strip (lower raw') = u ->
      iteration (mkState (current_plan st) (last_response st)
                   (execution_prompt st) (calls st) (raw' :: rest) (out st))
      = iteration st) /\
  revision_prompt_of u =
    ("The user wants to revise the organization plan. Their feedback is: '"
     ++ u
     ++ ("'." ++ nl
         ++ "Generate a *new* organization plan (as a sequence of tool calls) that addresses this feedback. "
         ++ "IMPORTANT: If you need to know the current state of the directory, use the 'list_directory' tool *first*."))%string /\
  contains u (revision_prompt_of u) = true.
Proof.
  intros u.
  assert (Hshape :
    revision_prompt_of u =
    ("The user wants to revise the organization plan. Their feedback is: '"
     ++ u
     ++ ("'." ++ nl
         ++ "Generate a *new* organization plan (as a sequence of tool calls) that addresses this feedback. "
         ++ "IMPORTANT: If you need to know the current state of the directory, use the 'list_directory' tool *first*."))%string).
  { reflexivity. }
  split; [apply normalised_is_lower|].
  split; [exact (body_review st raw rest Hp Hin)|].
  split; [exact (iteration_with_plan st raw rest Hp Hin)|].
  split; [|split].
  - rewrite agent_calls_app.
    destruct (review_events_obs st) as (-> & _). apply reaction_events_calls.
  - intros raw' Hraw'. apply iteration_same_body.
    rewrite (body_review st raw rest Hp Hin).
    rewrite (body_review
               (mkState (current_plan st) (last_response st)
                  (execution_prompt st) (calls st) (raw' :: rest) (out st))
               raw' rest Hp eq_refl).
    fold u. rewrite Hraw'. reflexivity.
  - split; [exact Hshape|]. rewrite Hshape. apply contains_middle.
Qed.

(** C9: the plan set by a proposal step is [extract_plan] of the response
    text, whatever the state the step starts from; the review display
    appends the rendering of the current plan to the output and changes
    nothing else, so that displaying twice prints the same block twice; the
    three groups are the create, move and other lines of the plan, each in
    plan order. *)
Theorem extraction_and_rendering_repeatable
  (stA stB st1 st2 : state) (plan response : string)
  (HA : agent (calls stA) proposal = Content response)
  (HB : agent (calls stB) proposal = Content response)
  (H1 : current_plan st1 = plan)
  (H2 : current_plan st2 = plan)
  (Ht : truthy plan = true) :
  current_plan (snd (propose agent base initial_structure user_context_input
                       debug_mode stA)) = extract_plan response /\
  current_plan (snd (propose agent base initial_structure user_context_input
                       debug_mode stB)) = extract_plan response /\
  display st1 = (Done tt, add_out st1 (map EPrint (render_plan plan))) /\
  display st2 = (Done tt, add_out st2 (map EPrint (render_plan plan))) /\
  bind display (fun _ => display) st1 =
    (Done tt, add_out st1 (map EPrint (render_plan plan)
                           ++ map EPrint (render_plan plan))) /\
  classify plan =
    mkGroups (filter is_create (plan_lines_of plan))
             (filter is_move (plan_lines_of plan))
             (filter is_other (plan_lines_of plan)).
Proof.
  assert (D : forall st, current_plan st = plan ->
                display st = (Done tt, add_out st (map EPrint (render_plan plan)))).
  { intros st H. rewrite display_out, display_lines_plan; rewrite H; auto. }
  rewrite (propose_content stA response HA), (propose_content stB response HB).
  repeat split; auto.
  - unfold bind. rewrite (D st1 H1), D by exact H1.
    unfold add_out; cbn [current_plan last_response execution_prompt calls stdin out].
    now rewrite <- app_assoc.
  - apply classify_filters.
Qed.

(** C6: on approval of a plan the controller makes one agent call, whose
    prompt carries every line of the plan; when the call returns, the
    result text is printed as it is and the loop is left with the plan and
    the last response unchanged; when the call raises, the handler decides:
    a provider error that is not a rate limit leaves the loop, the other
    exceptions continue it. *)
Theorem approved_plan_sent_whole
  (st : state) (raw : string) (rest : list string)
  (Hp : truthy (current_plan st) = true)
  (Hin : stdin st = raw :: rest)
  (Hyes : strip (lower raw) = "yes") :
  out (snd (iteration st)) = out st ++ review_events st ++ reaction_evs st "yes" /\
  agent_calls (review_events st ++ reaction_evs st "yes") =
    [execution_prompt_of (current_plan st)] /\
  dispatched_lines (review_events st ++ reaction_evs st "yes") =
    plan_lines_of (current_plan st) /\
  match agent (calls st) (execution_prompt_of (current_plan st)) with
  | Content result =>
      iteration st =
      (Done Break,
       mkState (current_plan st) (last_response st)
         (Some (execution_prompt_of (current_plan st)))
         (S (calls st)) rest
         (out st ++ review_events st ++ execute_evs (current_plan st) result))
  | Fails e => fst (iteration st) = Done (handler_ctl e)
  end.
Proof.
  pose proof (iteration_with_plan st raw rest Hp Hin) as Hout.
  pose proof (body_review st raw rest Hp Hin) as Hb.
  rewrite Hyes in Hout, Hb.
  split; [exact Hout|].
  rewrite agent_calls_app, dispatched_lines_app.
  destruct (review_events_obs st) as (-> & -> & _).
  rewrite reaction_events_calls, reaction_events_dispatch. cbn [app String.eqb Ascii.eqb Bool.eqb].
  split; [reflexivity|]. split; [reflexivity|].
  rewrite handle_approve in Hb by exact Hp.
  cbn [current_plan] in Hb.
  destruct (agent (calls st) (execution_prompt_of (current_plan st))) as [r|e] eqn:Ea.
  - rewrite execute_content with (result := r) in Hb by exact Ea.
    rewrite (iteration_done _ _ _ Hb). settle.
  - rewrite execute_fails with (e := e) in Hb by exact Ea.
    now rewrite (iteration_raised _ _ _ Hb).
Qed.

(** C1: the lines handed over for execution are the lines kept by the
    extraction, in the order in which they stand in the proposal; the
    controller does not reorder them.  Creates before moves, each group in
    plan order, is how the review display lists the plan. *)
Theorem execution_keeps_extraction_order
  (st : state) (response raw : string) (rest : list string)
  (Hp : truthy (current_plan st) = false)
  (Ha : agent (calls st) proposal = Content response)
  (Hne : extract_plan_lines response <> [])
  (Hin : stdin st = raw :: rest)
  (Hyes : strip (lower raw) = "yes") :
  let kept := extract_plan_lines response in
  let plan := join nl kept in
  exists evs,
    out (snd (iteration st)) =
      out st ++ propose_evs response ++ map EPrint (render_plan plan)
             ++ [EInput review_prompt] ++ evs /\
    dispatched_lines
      (propose_evs response ++ map EPrint (render_plan plan)
       ++ [EInput review_prompt] ++ evs) = kept /\
    agent_calls evs = [execution_prompt_of plan] /\
    execution_prompt_of plan = (execution_header ++ join nl kept)%string /\
    classify plan =
      mkGroups (filter is_create kept) (filter is_move kept)
               (filter is_other kept).
Proof.
  intros kept plan.
  destruct (extract_plan_nonempty response Hne) as (Hplan & Ht & Hlines).
  fold kept in Hplan, Hlines. fold plan in Hplan.
  set (st1 := mkState (extract_plan response) response (execution_prompt st)
                (S (calls st)) (stdin st) (out st ++ propose_evs response)).
  pose proof (iteration_after_proposal st response Hp Ha Ht) as Hit.
  fold st1 in Hit.
  pose proof (iteration_with_plan st1 raw rest Ht Hin) as Hout.
  rewrite <- Hit, Hyes in Hout.
  exists (reaction_evs st1 "yes").
  assert (Hcp : current_plan st1 = plan) by exact Hplan.
  split.
  - rewrite Hout. unfold review_events. rewrite Hcp.
    cbn [out st1]. now rewrite <- !app_assoc.
  - rewrite !dispatched_lines_app.
    destruct (propose_events_obs response) as (_ & -> & _).
    destruct (prints_silent (render_plan plan)) as (_ & -> & _).
    rewrite reaction_events_dispatch, reaction_events_calls, Hcp.
    cbn [app dispatched_lines String.eqb Ascii.eqb Bool.eqb].
    assert (Hl : plan_lines_of plan = kept) by (rewrite <- Hplan; exact Hlines).
    rewrite classify_filters, Hl.
    repeat split; reflexivity.
Qed.

(** C2: the boundary check is made when the directory to organize is
    chosen: the directory given to [ALLOWED_BASE_PATH_STR] is a directory
    within the resolved top-level path.  On approval the plan, whatever
    paths its lines name, is sent to the agent as it is, in one request
    made of the fixed header and the plan text. *)
Theorem boundary_checked_at_selection_only
  (cwd home : string) (pw_dir : string -> option string)
  (isdir : string -> bool) (top_level_path_config default_target_dir_config : string)
  (lines remaining : list string)
  (st : state) (raw : string) (rest : list string)
  (Hsel : determine_target cwd home pw_dir isdir top_level_path_config
            default_target_dir_config lines = Some (base, remaining))
  (Hp : truthy (current_plan st) = true)
  (Hin : stdin st = raw :: rest)
  (Hyes : strip (lower raw) = "yes") :
  isdir base = true /\
  is_path_within_boundary cwd base
    (resolved_top_level cwd home pw_dir top_level_path_config) = true /\
  exists evs,
    out (snd (iteration st)) = out st ++ evs /\
    agent_calls evs = [(execution_header ++ current_plan st)%string] /\
    dispatched_lines evs = plan_lines_of (current_plan st).
Proof.
  destruct (determine_target_within _ _ _ _ _ _ _ _ _ Hsel) as [Hd Hw].
  split; [exact Hd|]. split; [exact Hw|].
  exists (review_events st ++ reaction_evs st "yes").
  pose proof (iteration_with_plan st raw rest Hp Hin) as Hout.
  rewrite Hyes in Hout.
  split; [exact Hout|].
  rewrite agent_calls_app, dispatched_lines_app.
  destruct (review_events_obs st) as (-> & -> & _).
  now rewrite reaction_events_calls, reaction_events_dispatch.
Qed.

(** A proposal step always starts with the agent call and reads no
    operator input. *)
Lemma propose_calls_agent (st : state) :
  exists evs,
    out (snd (propose agent base initial_structure user_context_input
                debug_mode st)) = out st ++ propose_failed_evs ++ evs /\
    stdin (snd (propose agent base initial_structure user_context_input
                  debug_mode st)) = stdin st.
Proof.
  destruct (agent (calls st) proposal) as [r|e] eqn:Ea.
  - rewrite (propose_content st r Ea). cbn [snd out stdin].
    unfold propose_events, propose_failed_events. cbn [app].
    eexists. split; reflexivity.
  - rewrite (propose_fails st e Ea). cbn [snd out stdin].
    exists []. now rewrite app_nil_r.
Qed.

(** After a rate limit on the proposal call the iteration pauses and the
    loop goes on without a plan and without having read operator input, so
    that the next iteration starts with the proposal call again. *)
Lemma rate_limit_auto_retry (st : state) (msg : string) :
  truthy (current_plan st) = false ->
  agent (calls st) proposal = Fails (ModelProviderError msg) ->
  is_rate_limit msg = true ->
  exists st1,
    iteration st = (Done Continue, st1) /\
    stdin st1 = stdin st /\
    out st1 = out st ++ propose_failed_evs ++ rate_limit_events /\
    body st1 =
      bind (propose agent base initial_structure user_context_input debug_mode)
           (fun _ => review_step) st1.
Proof.
  intros Hp Ha Hr.
  assert (Hb : body st =
               (Raised (ModelProviderError msg),
                mkState (current_plan st) (last_response st) (execution_prompt st)
                  (S (calls st)) (stdin st) (out st ++ propose_failed_evs))).
  { rewrite (body_without_plan st Hp). unfold bind.
    now rewrite (propose_fails st _ Ha). }
  rewrite (iteration_raised _ _ _ Hb).
  cbn [handler_ctl handler_events resets current_plan last_response
       execution_prompt calls stdin out]. rewrite Hr.
  eexists. split; [reflexivity|]. cbn [stdin out].
  split; [reflexivity|]. split; [now rewrite <- app_assoc|].
  apply body_without_plan. cbn [current_plan].
  destruct (_ && _); [reflexivity | exact Hp].
Qed.

End LoopFacts.

(** * Extraction: what is kept and how it is shown *)

(** C5: extraction keeps the lines that, stripped and lowercased, start
    with the tool-call prefix.  When there is none the plan is empty.
    Otherwise the plan's lines are the kept lines in order and the display
    puts each of them in exactly one group: among the creates when it
    contains [create_directory], else among the moves when it contains
    [move_file], else among the others; the argument payload is not
    parsed. *)
Theorem extraction_groups_by_substring (response : string) :
  Forall (fun x => startswith (lower x) tool_call_prefix = true)
    (extract_plan_lines response) /\
  match extract_plan_lines response with
  | [] => extract_plan response = ""
  | kept =>
      plan_lines_of (extract_plan response) = kept /\
      classify (extract_plan response) =
        mkGroups (filter is_create kept) (filter is_move kept)
                 (filter is_other kept) /\
      List.length (filter is_create kept) + List.length (filter is_move kept)
      + List.length (filter is_other kept) = List.length kept
  end.
Proof.
  split.
  - eapply Forall_impl; [|apply extract_plan_lines_kept]. now intros x (H & _).
  - destruct (extract_plan_lines response) as [|x l] eqn:E.
    + unfold extract_plan. now rewrite E.
    + assert (Hne : extract_plan_lines response <> []) by (rewrite E; discriminate).
      destruct (extract_plan_nonempty response Hne) as (_ & _ & Hl).
      rewrite E in Hl. rewrite classify_filters, Hl.
      repeat split. apply partition_lengths.
Qed.

(** * Concrete sessions *)

Section ConcreteSessions.

Import Demo.

(** C1, as stated, fails: a proposal that lists a move before a create is
    approved, and the lines handed over for execution are in that same
    order, the move first. *)
Lemma moves_dispatched_before_creates :
  let st' := snd (run (agent_saying move_first (Content "done")) 1 ["yes"]) in
  dispatched_lines (out st') = [move_line; create_line] /\
  creates_first (dispatched_lines (out st')) = false.
Proof. vm_compute. split; reflexivity. Qed.

Lemma execution_keeps_extraction_order_witness :
  extract_plan_lines move_first <> [] /\
  strip (lower " Yes") = "yes" /\
  exists evs,
    out (snd (iterate (agent_saying move_first (Content "done"))
                (initial_state [" Yes"]))) = evs /\
    dispatched_lines evs = [move_line; create_line].
Proof.
  assert (Hne : extract_plan_lines move_first <> []) by (vm_compute; discriminate).
  assert (Hyes : strip (lower " Yes") = "yes") by (vm_compute; reflexivity).
  split; [exact Hne|]. split; [exact Hyes|].
  destruct (execution_keeps_extraction_order
              (agent_saying move_first (Content "done")) base listing "" false
              (initial_state [" Yes"]) move_first " Yes" []
              eq_refl eq_refl Hne eq_refl Hyes)
    as (evs & Hout & Hd & _).
  eexists. split; [exact Hout|].
  cbn [out initial_state app]. exact Hd.
Defined.

(** C2, as stated, fails: the plan names a destination that resolves
    outside the directory being organized; on approval the line is handed
    over for execution all the same, and the loop ends normally. *)
Lemma escaping_line_dispatched :
  let r := run (agent_saying escaping (Content "done")) 1 ["yes"] in
  is_path_within_boundary "/" (join2 base "../../etc/a.jpg") base = false /\
  dispatched_lines (out (snd r)) = [escape_line] /\
  fst r = Done (Some tt).
Proof. vm_compute. repeat split; reflexivity. Qed.

Lemma boundary_checked_at_selection_only_witness :
  determine_target "/" "/home/u" (fun _ => None)
    (fun p => p =? "/home/u/docs") "~" "" ["/etc"; "~/docs"; "later"]
  = Some (base, ["later"]) /\
  strip (lower "yes") = "yes" /\
  is_path_within_boundary "/" base "/home/u" = true /\
  exists evs,
    out (snd (iterate (agent_saying "done" (Content "done"))
                (reviewing ["yes"]))) = evs /\
    dispatched_lines evs = [create_line; move_line].
Proof.
  assert (Hsel : determine_target "/" "/home/u" (fun _ => None)
                   (fun p => p =? "/home/u/docs") "~" ""
                   ["/etc"; "~/docs"; "later"] = Some (base, ["later"]))
    by (vm_compute; reflexivity).
  assert (Hyes : strip (lower "yes") = "yes") by (vm_compute; reflexivity).
  assert (Hp : truthy (current_plan (reviewing ["yes"])) = true)
    by (vm_compute; reflexivity).
  split; [exact Hsel|]. split; [exact Hyes|].
  destruct (boundary_checked_at_selection_only
              (agent_saying "done" (Content "done")) base listing "" false
              "/" "/home/u" (fun _ => None) (fun p => p =? "/home/u/docs")
              "~" "" ["/etc"; "~/docs"; "later"] ["later"]
              (reviewing ["yes"]) "yes" [] Hsel Hp eq_refl Hyes)
    as (_ & Hw & evs & Hout & _ & Hd).
  split; [exact Hw|].
  eexists. split; [exact Hout|].
  cbn [out reviewing app]. rewrite Hd. vm_compute. reflexivity.
Defined.

(** C5, as stated, fails: a kept line that names a tool other than
    [create_directory] and [move_file] is shown among the directories to
    create, because its payload contains that word, and not among the
    other actions. *)
Lemma unrecognized_tool_shown_as_create :
  extract_plan_lines odd_line = [odd_line] /\
  spec_named_tool odd_line = "frobnicate" /\
  spec_recognized_tool (spec_named_tool odd_line) = false /\
  classify (extract_plan odd_line) = mkGroups [odd_line] [] [].
Proof. vm_compute. repeat split; reflexivity. Qed.

(** C6, as stated, fails: the plan has two lines and the execution call
    fails; both lines had been handed over in the one execution request
    made before the failure, and the loop goes on to a new proposal. *)
Lemma failing_execution_had_all_lines :
  let agent := agent_saying create_first
                 (Fails (Exception "create_directory failed")) in
  let r := run agent 2 ["yes"] in
  dispatched_lines (out (snd r)) = [create_line; move_line] /\
  agent_calls (out (snd r)) =
    [proposal;
     execution_prompt_of (create_line ++ nl ++ move_line);
     proposal].
Proof. vm_compute. split; reflexivity. Qed.

Lemma approved_plan_sent_whole_witness :
  strip (lower "YES") = "yes" /\
  fst (iterate (agent_saying "unused" (Content "done")) (reviewing ["YES"]))
  = Done Break.
Proof.
  assert (Hyes : strip (lower "YES") = "yes") by (vm_compute; reflexivity).
  assert (Hp : truthy (current_plan (reviewing ["YES"])) = true)
    by (vm_compute; reflexivity).
  split; [exact Hyes|].
  destruct (approved_plan_sent_whole
              (agent_saying "unused" (Content "done")) base listing "" false
              (reviewing ["YES"]) "YES" [] Hp eq_refl Hyes)
    as (_ & _ & _ & H).
  cbn [agent_saying calls reviewing] in H. unfold iterate. now rewrite H.
Defined.

(** C7: the first proposal call hits the rate limit; the controller pauses
    65 seconds and calls the agent with the proposal prompt again, before
    any operator input is read. *)
Theorem rate_limit_retries_without_operator :
  let evs := firstn 10 (out (snd (run agent_rate_limited 2 ["no"]))) in
  evs = propose_failed_events base listing ""
        ++ rate_limit_events
        ++ propose_failed_events base listing "" /\
  agent_calls evs = [proposal; proposal] /\
  inputs_read evs = 0.
Proof. vm_compute. repeat split; reflexivity. Qed.

(** C3: a boundary written with exactly two leading slashes.  [abspath]
    keeps the two slashes, [commonpath] returns the common path with one,
    and the comparison of the two strings fails: the boundary is reported
    not to contain itself, nor a directory below it, although its
    components are a prefix of theirs. *)
Theorem double_slash_boundary_rejects_itself :
  abspath "/" "//srv/data" = "//srv/data" /\
  commonpath "//srv/data" "//srv/data" = Ok "/srv/data" /\
  comps_prefix (path_comps (abspath "/" "//srv/data"))
    (path_comps (abspath "/" "//srv/data/photos")) = true /\
  is_path_within_boundary "/" "//srv/data" "//srv/data" = false /\
  is_path_within_boundary "/" "//srv/data/photos" "//srv/data" = false.
Proof. vm_compute. repeat split; reflexivity. Qed.

(** C4, as stated, fails: the check does not expand [~].  With home
    directory [/home/u] and working directory [/tmp], [~/docs] is resolved
    to [/tmp/~/docs] and found outside [/home/u]; the expanded path is
    found inside. *)
Lemma tilde_not_expanded_by_guard :
  abspath "/tmp" "~/docs" = "/tmp/~/docs" /\
  is_path_within_boundary "/tmp" "~/docs" "/home/u" = false /\
  is_path_within_boundary "/tmp"
    (expanduser "/home/u" (fun _ => None) "~/docs")
    (expanduser "/home/u" (fun _ => None) "/home/u") = true.
Proof. vm_compute. repeat split; reflexivity. Qed.

Lemma guard_resolves_with_abspath_witness :
  startswith "/tmp" sep = true /\
  determine_target "/tmp" "/home/u" (fun _ => None)
    (fun p => p =? "/home/u/docs") "~" "" ["/etc"; "~/docs"; "later"]
  = Some (base, ["later"]) /\
  is_path_within_boundary "/tmp" "a/../b/./c" "." =
  is_path_within_boundary "/tmp" "/tmp/b/c" "/tmp".
Proof.
  assert (Habs : startswith "/tmp" sep = true) by reflexivity.
  assert (Hsel : determine_target "/tmp" "/home/u" (fun _ => None)
                   (fun p => p =? "/home/u/docs") "~" ""
                   ["/etc"; "~/docs"; "later"] = Some (base, ["later"]))
    by (vm_compute; reflexivity).
  split; [exact Habs|]. split; [exact Hsel|].
  destruct (guard_resolves_with_abspath "/tmp" "/home/u" (fun _ => None)
              (fun p => p =? "/home/u/docs") "~" ""
              ["/etc"; "~/docs"; "later"] ["later"] base "a/../b/./c" "."
              Habs Hsel) as (H & _).
  exact H.
Defined.

Lemma extraction_and_rendering_repeatable_witness :
  truthy (extract_plan create_first) = true /\
  current_plan
    (snd (propose (agent_saying create_first (Content "done")) base listing ""
            false (initial_state [])))
  = extract_plan create_first /\
  display (reviewing ["yes"]) =
  (Done tt,
   add_out (reviewing ["yes"]) (map EPrint (render_plan (extract_plan create_first)))).
Proof.
  assert (Ht : truthy (extract_plan create_first) = true)
    by (vm_compute; reflexivity).
  split; [exact Ht|].
  destruct (extraction_and_rendering_repeatable
              (agent_saying create_first (Content "done")) base listing "" false
              (initial_state []) (initial_state ["no"])
              (reviewing ["yes"]) (reviewing [])
              (extract_plan create_first) create_first
              eq_refl eq_refl eq_refl eq_refl Ht)
    as (HA & _ & H1 & _).
  split; [exact HA | exact H1].
Defined.

Lemma review_input_normalised_witness :
  strip (lower "  Group By YEAR ") = "group by year" /\
  agent_calls
    (out (snd (iterate (agent_saying "unused" (Content "new plan"))
                 (reviewing ["  Group By YEAR "]))))
  = [revision_prompt_of "group by year"] /\
  contains "group by year" (revision_prompt_of "group by year") = true /\
  contains "Group By YEAR" (revision_prompt_of "group by year") = false.
Proof.
  assert (Hp : truthy (current_plan (reviewing ["  Group By YEAR "])) = true)
    by (vm_compute; reflexivity).
  assert (Hu : strip (lower "  Group By YEAR ") = "group by year")
    by (vm_compute; reflexivity).
  split; [exact Hu|].
  destruct (review_input_normalised
              (agent_saying "unused" (Content "new plan")) base listing "" false
              (reviewing ["  Group By YEAR "]) "  Group By YEAR " [] Hp eq_refl)
    as (_ & _ & Hout & Hcalls & _ & _ & Hcarries).
  split; [|split].
  - unfold iterate. rewrite Hout. cbn [out reviewing app].
    rewrite Hcalls, Hu. reflexivity.
  - rewrite Hu in Hcarries. exact Hcarries.
  - vm_compute. reflexivity.
Defined.

(** The boundary check and the extraction on small inputs. *)
Example within_descendant :
  is_path_within_boundary "/tmp" "/root/a/b" "/root" = true.
Proof. reflexivity. Qed.

Example outside_after_dotdot :
  is_path_within_boundary "/tmp" "/root/escape/../../etc" "/root" = false.
Proof. reflexivity. Qed.

Example sibling_with_common_text :
  is_path_within_boundary "/tmp" "/rootx" "/root" = false.
Proof. reflexivity. Qed.

Example ancestor_is_outside :
  is_path_within_boundary "/tmp" "/root" "/root/a" = false.
Proof. reflexivity. Qed.

Example relative_paths_from_cwd :
  is_path_within_boundary "/tmp" "x/./y" "." = true.
Proof. reflexivity. Qed.

Example normpath_collapses : normpath "///a//b/../c/." = "/a/c".
Proof. reflexivity. Qed.

Example expanduser_home :
  expanduser "/home/u/" (fun _ => None) "~/docs" = "/home/u/docs".
Proof. reflexivity. Qed.

Example extraction_keeps_tool_lines_only :
  extract_plan_lines create_first = [create_line; move_line] /\
  classify (extract_plan create_first) = mkGroups [create_line] [move_line] [].
Proof. vm_compute. split; reflexivity. Qed.

Example extraction_of_empty_text : extract_plan "" = "".
Proof. reflexivity. Qed.

End ConcreteSessions.

(** * Further properties of the boundary check *)

Section GuardProperties.

Variable cwd : string.
Hypothesis cwd_absolute : startswith cwd sep = true.

Lemma comps_prefix_trans (a b c : list string) :
  comps_prefix a b = true -> comps_prefix b c = true -> comps_prefix a c = true.
Proof.
  revert b c. induction a as [|x a IH]; intros b c Hab Hbc; [reflexivity|].
  destruct b as [|y b]; [discriminate|]. destruct c as [|z c]; [discriminate|].
  cbn [comps_prefix] in *.
  apply andb_true_iff in Hab as [E1 Hab]. apply andb_true_iff in Hbc as [E2 Hbc].
  apply String.eqb_eq in E1 as ->. rewrite E2. exact (IH b c Hab Hbc).
Qed.

Lemma comps_prefix_antisym (a b : list string) :
  comps_prefix a b = true -> comps_prefix b a = true -> a = b.
Proof.
  revert b. induction a as [|x a IH]; intros [|y b] Hab Hba; try discriminate;
    [reflexivity|].
  cbn [comps_prefix] in *.
  apply andb_true_iff in Hab as [E1 Hab]. apply andb_true_iff in Hba as [_ Hba].
  apply String.eqb_eq in E1 as ->. now rewrite (IH b Hab Hba).
Qed.

(** X1: for an absolute working directory the check raises nothing:
    [commonpath] returns a value for the two resolved paths; and the check
    answers [True] exactly when the resolved boundary starts with a single
    slash and its components are, one by one, the first components of the
    resolved candidate. *)
Theorem boundary_check_by_components (check boundary : string) :
  (exists common,
      commonpath (abspath cwd boundary) (abspath cwd check) = Ok common) /\
  (is_path_within_boundary cwd check boundary = true <->
   initial_slashes (abspath cwd boundary) = 1 /\
   comps_prefix (path_comps (abspath cwd boundary))
     (path_comps (abspath cwd check)) = true).
Proof.
  split.
  - destruct (commonpath_resolved cwd cwd_absolute boundary check) as (l & H & _).
    eauto.
  - apply within_boundary_iff, cwd_absolute.
Qed.

(** X2: containment is transitive: a path within a directory that is
    within a boundary is within that boundary. *)
Theorem boundary_check_transitive (inner middle outer : string) :
  is_path_within_boundary cwd inner middle = true ->
  is_path_within_boundary cwd middle outer = true ->
  is_path_within_boundary cwd inner outer = true.
Proof.
  rewrite !(within_boundary_iff cwd cwd_absolute).
  intros [_ H1] [Hk H2]. split; [exact Hk|].
  exact (comps_prefix_trans _ _ _ H2 H1).
Qed.

(** X3: two paths that are each within the other resolve to the same
    absolute path. *)
Theorem boundary_check_antisymmetric (a b : string) :
  is_path_within_boundary cwd a b = true ->
  is_path_within_boundary cwd b a = true ->
  abspath cwd a = abspath cwd b.
Proof.
  rewrite !(within_boundary_iff cwd cwd_absolute).
  intros [Hb H1] [Ha H2].
  destruct (abspath_canonical cwd cwd_absolute a) as (_ & _ & Ea).
  destruct (abspath_canonical cwd cwd_absolute b) as (_ & _ & Eb).
  rewrite Ea, Eb, Ha, Hb. f_equal. f_equal.
  symmetry. exact (comps_prefix_antisym _ _ H1 H2).
Qed.

(** X4: the root directory as boundary admits every path. *)
Theorem root_boundary_admits_all (check : string) :
  is_path_within_boundary cwd check "/" = true.
Proof.
  apply (within_boundary_iff cwd cwd_absolute). split; reflexivity.
Qed.

Lemma normpath_truthy (p : string) : truthy (normpath p) = true.
Proof.
  unfold normpath. destruct (p =? ""); [reflexivity|].
  cbv zeta.
  destruct (truthy (repeat_sep (initial_slashes p) ++ join sep (norm_comps p)))
    eqn:E; [exact E | reflexivity].
Qed.

(** X5: resolving a resolved path changes nothing, and a resolved path is
    never the empty string. *)
Theorem abspath_stable (p : string) :
  abspath cwd (abspath cwd p) = abspath cwd p /\
  truthy (abspath cwd p) = true /\
  startswith (abspath cwd p) sep = true.
Proof.
  split; [apply abspath_fixed, cwd_absolute|].
  split; [apply normpath_truthy|].
  exact (canonical_abs _ _ _ (abspath_canonical cwd cwd_absolute p)).
Qed.

End GuardProperties.

(** * Further properties of the choice of the directory *)

Section TargetProperties.

Variable cwd : string.
Variable home : string.
Variable pw_dir : string -> option string.
Variable isdir : string -> bool.
Variable top_level_path_config : string.
Variable default_target_dir_config : string.

Local Abbreviation accepted p :=
  (check_candidate cwd home pw_dir isdir top_level_path_config
     (resolve cwd home pw_dir p) = Accepted).

(** X6: the directory prompt takes the first entered path that is a
    directory within the top-level path: the lines before it were all
    refused, and the lines after it are left unread. *)
Theorem prompt_takes_first_accepted
  (lines remaining : list string) (target : string)
  (Hsel : prompt_target cwd home pw_dir isdir top_level_path_config lines
          = Some (target, remaining)) :
  exists refused p,
    lines = refused ++ p :: remaining /\
    target = resolve cwd home pw_dir p /\
    accepted p /\
    Forall (fun q => ~ accepted q) refused.
Proof.
  revert Hsel. induction lines as [|user_path rest IH]; simpl; [discriminate|].
  destruct (check_candidate _ _ _ _ _ (resolve cwd home pw_dir user_path)) eqn:E.
  - intros H. destruct (IH H) as (refused & p & -> & Ht & Ha & Hr).
    exists (user_path :: refused), p. repeat split; auto.
    constructor; [rewrite E; discriminate | exact Hr].
  - intros H. destruct (IH H) as (refused & p & -> & Ht & Ha & Hr).
    exists (user_path :: refused), p. repeat split; auto.
    constructor; [rewrite E; discriminate | exact Hr].
  - intros [= <- <-]. exists [], user_path. repeat split; auto.
Qed.

(** X7: the directory prompt runs out of input exactly when no entered
    path is a directory within the top-level path. *)
Theorem prompt_fails_iff_all_refused (lines : list string) :
  prompt_target cwd home pw_dir isdir top_level_path_config lines = None <->
  Forall (fun q => ~ accepted q) lines.
Proof.
  induction lines as [|user_path rest IH]; simpl.
  - split; [constructor | reflexivity].
  - destruct (check_candidate _ _ _ _ _ (resolve cwd home pw_dir user_path)) eqn:E.
    + rewrite IH. split; [|now inversion 1].
      intros H. constructor; [intros D; rewrite E in D; discriminate D | exact H].
    + rewrite IH. split; [|now inversion 1].
      intros H. constructor; [intros D; rewrite E in D; discriminate D | exact H].
    + split; [discriminate|]. inversion 1 as [|? ? Hn]; subst. now elim (Hn E).
Qed.

(** X8: the directory chosen is never the empty string, so the test
    [if not ALLOWED_BASE_PATH_STR] that follows the choice never exits. *)
Theorem chosen_target_not_empty
  (lines remaining : list string) (target : string)
  (Hsel : determine_target cwd home pw_dir isdir top_level_path_config
            default_target_dir_config lines = Some (target, remaining)) :
  truthy target = true.
Proof.
  destruct (determine_target_resolved _ _ _ _ _ _ _ _ _ Hsel) as [p ->].
  apply normpath_truthy.
Qed.

End TargetProperties.

(** * Further properties of extraction and rendering *)

Section ExtractionProperties.

Lemma contains_step (needle : string) (a : ascii) (t : string) :
  startswith (String a t) needle = false ->
  contains needle (String a t) = contains needle t.
Proof. intros H. cbn [contains]. now rewrite H. Qed.

(** [split1] cuts at the leftmost occurrence of the marker. *)
Lemma split1_aux_first (marker s before : string) :
  contains marker s = true ->
  exists pre post,
    s = (pre ++ marker ++ post)%string /\
    split1_aux marker s before = [(before ++ pre)%string; post] /\
    forall pre' post',
      s = (pre' ++ marker ++ post')%string ->
      String.length pre <= String.length pre'.
Proof.
  revert before. induction s as [|a t IH]; intros before Hc.
  - cbn [contains] in Hc. rewrite orb_false_r in Hc.
    exists "", "". destruct marker; [|discriminate].
    repeat split; [now rewrite append_empty_r | intros; apply Nat.le_0_l].
  - destruct (startswith (String a t) marker) eqn:E.
    + exists "", (drop (String.length marker) (String a t)).
      split; [exact (startswith_split _ _ E)|].
      split; [|intros; apply Nat.le_0_l].
      cbn [split1_aux]. now rewrite E, append_empty_r.
    + rewrite (contains_step _ _ _ E) in Hc.
      destruct (IH (before ++ String a "")%string Hc) as (pre & post & -> & Hs & Hmin).
      exists (String a pre), post.
      split; [reflexivity|]. split.
      * cbn [split1_aux]. rewrite E, Hs, append_assoc. reflexivity.
      * intros pre' post' H. destruct pre' as [|b pre'].
        -- cbn [append] in H. rewrite H, startswith_append in E. discriminate.
        -- injection H as _ H. cbn [String.length]. apply le_n_S. eauto.
Qed.

(** X9: when the response contains the plan marker, the plan lines are
    the tool-call lines of the text that follows the first occurrence of
    the marker; tool-call lines before it are not part of the plan. *)
Theorem plan_taken_after_first_marker (response : string)
  (Hm : contains plan_marker response = true) :
  exists pre post,
    response = (pre ++ plan_marker ++ post)%string /\
    (forall pre' post',
        response = (pre' ++ plan_marker ++ post')%string ->
        String.length pre <= String.length pre') /\
    extract_plan_lines response = tool_lines (strip post).
Proof.
  destruct (split1_aux_first plan_marker response "" Hm)
    as (pre & post & Hr & Hs & Hmin).
  exists pre, post. repeat split; auto.
  unfold extract_plan_lines, split1. now rewrite Hm, Hs.
Qed.

Lemma rstrip_cons (a : ascii) (t : string) :
  rstrip (String a t) =
  match rstrip t with
  | "" => if is_space a then "" else String a ""
  | r => String a r
  end.
Proof. reflexivity. Qed.

Lemma rstrip_idem (s : string) : rstrip (rstrip s) = rstrip s.
Proof.
  induction s as [|a t IH]; [reflexivity|]. rewrite rstrip_cons.
  destruct (rstrip t) as [|b r] eqn:E.
  - destruct (is_space a) eqn:Ea; [reflexivity|]. cbn [rstrip]. now rewrite Ea.
  - rewrite rstrip_cons, IH. reflexivity.
Qed.

Lemma rstrip_head (a : ascii) (t : string) :
  is_space a = false -> exists r, rstrip (String a t) = String a r.
Proof.
  intros Ha. cbn [rstrip]. destruct (rstrip t); [rewrite Ha|]; eauto.
Qed.

Lemma lstrip_head (s : string) :
  lstrip s = "" \/ exists a t, lstrip s = String a t /\ is_space a = false.
Proof.
  induction s as [|a t IH]; [now left|]. cbn [lstrip].
  destruct (is_space a) eqn:E; [exact IH | right; eauto].
Qed.

Lemma strip_idem (s : string) : strip (strip s) = strip s.
Proof.
  unfold strip. destruct (lstrip_head s) as [-> | (a & t & -> & Ha)];
    [reflexivity|].
  destruct (rstrip_head a t Ha) as [r Hr]. rewrite Hr.
  cbn [lstrip]. rewrite Ha, <- Hr. apply rstrip_idem.
Qed.

(** X10: every line of an extracted plan is free of leading and trailing
    blanks, holds no line break and starts, in some casing, with the
    tool-call prefix. *)
Theorem plan_lines_are_trimmed_tool_calls (response : string) :
  Forall (fun x => strip x = x /\
                   occurs (ascii_of_nat 10) x = false /\
                   startswith (lower x) tool_call_prefix = true)
    (extract_plan_lines response).
Proof.
  assert (T : forall text,
             Forall (fun x => strip x = x) (tool_lines text)).
  { intros text. unfold tool_lines. apply Forall_forall. intros x Hx.
    apply in_map_iff in Hx as (line & <- & _). apply strip_idem. }
  pose proof (extract_plan_lines_kept response) as Hk.
  assert (S : Forall (fun x => strip x = x) (extract_plan_lines response)).
  { unfold extract_plan_lines.
    destruct (contains plan_marker response); [apply T|].
    destruct (contains tool_call_prefix (lower response)); [apply T | constructor]. }
  rewrite Forall_forall in *. intros x Hx.
  destruct (Hk x Hx) as (H1 & H2 & _). auto.
Qed.

Lemma join_split_on (c : ascii) (s : string) :
  join (String c "") (split_on c s) = s.
Proof.
  induction s as [|a t IH]; [reflexivity|]. cbn [split_on].
  pose proof (split_on_not_nil c t) as Hne.
  destruct (Ascii.eqb a c) eqn:E.
  - apply Ascii.eqb_eq in E as ->.
    destruct (split_on c t) as [|h r]; [now elim Hne|].
    change (join (String c "") ("" :: h :: r))
      with (String c (join (String c "") (h :: r))).
    now rewrite IH.
  - destruct (split_on c t) as [|h r]; [now elim Hne|].
    rewrite <- IH. destruct r; reflexivity.
Qed.

(** X11: the plan text and its lines determine each other: the lines of
    the extracted plan are the kept lines, and joining the lines of any
    plan with line breaks gives back the plan text that is sent for
    execution. *)
Theorem plan_text_round_trip (plan : string) :
  join nl (plan_lines_of plan) = plan /\
  lines_of_request (execution_prompt_of plan) = plan_lines_of plan /\
  join nl (lines_of_request (execution_prompt_of plan)) = plan.
Proof.
  assert (H : join nl (plan_lines_of plan) = plan) by apply join_split_on.
  rewrite lines_of_execution_prompt. auto.
Qed.

Lemma three_way_permutation (lines : list string) :
  Permutation lines
    (filter is_create lines ++ filter is_move lines ++ filter is_other lines).
Proof.
  induction lines as [|x l IH]; [constructor|].
  cbn [filter]. unfold is_create at 1, is_move at 1, is_other at 1.
  destruct (contains "create_directory" x); cbn [negb andb].
  - cbn [app]. now constructor.
  - destruct (contains "move_file" x); cbn [negb andb].
    + apply Permutation_cons_app. exact IH.
    + rewrite app_assoc. apply Permutation_cons_app. now rewrite <- app_assoc.
Qed.

(** X12: the review display shows every line of the plan exactly once:
    the three groups together are a rearrangement of the plan's lines, and
    the lines printed are the heading, the titled groups that are not
    empty, each line behind a bullet, and the closing rule. *)
Theorem display_shows_each_line_once (plan : string) :
  let g := classify plan in
  Permutation (plan_lines_of plan) (creates g ++ moves g ++ others g) /\
  render_plan plan =
    [(nl ++ "--- Extracted Plan Actions --- (Review Carefully!) ---")%string]
    ++ render_group "  Directories to Create:" (creates g)
    ++ render_group "  Files/Folders to Move:" (moves g)
    ++ render_group "  Other Actions:" (others g)
    ++ ["--------------------------------------------------------"] /\
  forall x, In x (plan_lines_of plan) -> In (bullet x) (render_plan plan).
Proof.
  intros g. assert (P : Permutation (plan_lines_of plan)
                          (creates g ++ moves g ++ others g)).
  { unfold g. rewrite classify_filters. apply three_way_permutation. }
  split; [exact P|]. split; [reflexivity|].
  intros x Hx. apply (Permutation_in _ P) in Hx.
  assert (G : forall title items, In x items ->
                In (bullet x) (render_group title items)).
  { intros title items Hi. destruct items; [now elim Hi|].
    right. now apply in_map. }
  unfold render_plan. fold g. right.
  rewrite !in_app_iff in *. destruct Hx as [H | [H | H]]; eauto 6.
Qed.

End ExtractionProperties.

(** * Further properties of the loop *)

Section LoopProperties.

Variable agent : nat -> string -> reply.
Variable base : string.
Variable initial_structure : string.
Variable user_context_input : string.
Variable debug_mode : bool.

Local Abbreviation proposal :=
  (proposal_prompt base initial_structure user_context_input).
Local Abbreviation iteration :=
  (loop_iteration agent base initial_structure user_context_input debug_mode).
Local Abbreviation body :=
  (try_body agent base initial_structure user_context_input debug_mode).
Local Abbreviation review_step := (review agent base debug_mode).
Local Abbreviation handle_step := (handle agent base debug_mode).
Local Abbreviation propose_step :=
  (propose agent base initial_structure user_context_input debug_mode).
Local Abbreviation run_loop :=
  (main_loop agent base initial_structure user_context_input debug_mode).
Local Abbreviation propose_evs :=
  (propose_events base initial_structure user_context_input debug_mode).
Local Abbreviation propose_failed_evs :=
  (propose_failed_events base initial_structure user_context_input).

Lemma revise_events_obs (u r : string) :
  agent_calls (revise_events debug_mode u r) = [revision_prompt_of u] /\
  dispatched_lines (revise_events debug_mode u r) = [] /\
  inputs_read (revise_events debug_mode u r) = 0.
Proof. unfold revise_events. destruct debug_mode; auto. Qed.

Lemma execute_events_obs (plan r : string) :
  agent_calls (execute_events base plan r) = [execution_prompt_of plan] /\
  inputs_read (execute_events base plan r) = 0.
Proof. auto. Qed.

(** The handling of the operator's answer and what follows it in the
    iteration. *)
Lemma handle_frame (st0 st2 : state) (u : string) :
  body st0 = handle_step u st2 ->
  exists evs,
    out (snd (iteration st0)) = out st2 ++ evs /\
    stdin (snd (iteration st0)) = stdin st2 /\
    inputs_read evs = 0 /\
    List.length (agent_calls evs) <= 1 /\
    (dispatched_lines evs = [] \/ u = "yes").
Proof.
  intros Hb. destruct (u =? "yes") eqn:Ey.
  - apply String.eqb_eq in Ey. subst u.
    destruct (truthy (current_plan st2)) eqn:Hp.
    + rewrite handle_approve in Hb by exact Hp.
      destruct (agent (calls st2) (execution_prompt_of (current_plan st2)))
        as [r|e] eqn:Ea.
      * rewrite (execute_content agent base st2 _ r Ea) in Hb.
        rewrite (iteration_done _ _ _ _ _ _ _ _ Hb). cbn [snd out stdin].
        eexists. split; [reflexivity|]. split; [reflexivity|].
        split; [reflexivity|]. split; [cbn; lia | now right].
      * rewrite (execute_fails agent base st2 _ e Ea) in Hb.
        rewrite (iteration_raised _ _ _ _ _ _ _ _ Hb). cbn [snd out stdin].
        rewrite <- app_assoc. eexists. split; [reflexivity|].
        destruct (handler_events_silent e) as (Hc & Hd & Hi).
        cbn [app inputs_read agent_calls]. rewrite Hc, Hi.
        split; [reflexivity|]. split; [reflexivity|].
        split; [cbn; lia | now right].
    + rewrite handle_approve_no_plan in Hb by exact Hp.
      rewrite (iteration_done _ _ _ _ _ _ _ _ Hb). cbn [snd out stdin add_out].
      eexists. split; [reflexivity|]. split; [reflexivity|].
      split; [reflexivity|]. split; [cbn; lia | now left].
  - destruct (u =? "no") eqn:En.
    + apply String.eqb_eq in En. subst u. rewrite handle_reject in Hb.
      rewrite (iteration_done _ _ _ _ _ _ _ _ Hb). cbn [snd out stdin add_out].
      eexists. split; [reflexivity|]. split; [reflexivity|].
      split; [reflexivity|]. split; [cbn; lia | now left].
    + rewrite handle_feedback in Hb by assumption.
      destruct (agent (calls st2) (revision_prompt_of u)) as [r|e] eqn:Ea.
      * rewrite (revise_content agent debug_mode st2 _ r Ea) in Hb.
        rewrite (iteration_done _ _ _ _ _ _ _ _ Hb). cbn [snd out stdin].
        destruct (revise_events_obs u r) as (Hc & Hd & Hi).
        eexists. split; [reflexivity|]. split; [reflexivity|].
        split; [exact Hi|]. split; [rewrite Hc; cbn; lia | now left].
      * rewrite (revise_fails agent debug_mode st2 _ e Ea) in Hb.
        rewrite (iteration_raised _ _ _ _ _ _ _ _ Hb). cbn [snd out stdin].
        rewrite <- app_assoc. eexists. split; [reflexivity|].
        destruct (handler_events_silent e) as (Hc & Hd & Hi).
        cbn [app inputs_read agent_calls dispatched_lines].
        rewrite lines_of_revision, Hc, Hd, Hi.
        split; [reflexivity|]. split; [reflexivity|].
        split; [cbn; lia | now left].
Qed.


(** The review step and what follows it in the iteration. *)
Lemma review_frame (st0 st1 : state) :
  body st0 = review_step st1 ->
  exists evs,
    out (snd (iteration st0)) = out st1 ++ evs /\
    stdin (snd (iteration st0)) = skipn (inputs_read evs) (stdin st1) /\
    inputs_read evs = 1 /\
    List.length (agent_calls evs) <= 1 /\
    (dispatched_lines evs = [] \/
     exists raw rest, stdin st1 = raw :: rest /\ strip (lower raw) = "yes").
Proof.
  intros Hb. destruct (prints_silent (display_lines st1)) as (Pc & Pd & Pi).
  destruct (stdin st1) as [|raw rest] eqn:Hin.
  - rewrite (review_eof agent base debug_mode st1 Hin) in Hb.
    rewrite (iteration_raised _ _ _ _ _ _ _ _ Hb). cbn [snd out stdin].
    rewrite <- !app_assoc. eexists. split; [reflexivity|].
    rewrite !inputs_read_app, !agent_calls_app, !dispatched_lines_app.
    destruct (handler_events_silent (Exception "EOF when reading a line"))
      as (Hc & Hd & Hi).
    rewrite Pc, Pd, Pi, Hc, Hd, Hi. cbn.
    split; [reflexivity|]. split; [reflexivity|]. split; [lia | now left].
  - rewrite (review_out agent base debug_mode st1 raw rest Hin) in Hb.
    destruct (handle_frame _ _ _ Hb) as (evs & Ho & Hs & Hi & Hc & Hd).
    exists (map EPrint (display_lines st1) ++ [EInput review_prompt] ++ evs).
    rewrite Ho, Hs. cbn [out stdin]. rewrite <- !app_assoc.
    rewrite !inputs_read_app, !agent_calls_app, !dispatched_lines_app.
    rewrite Pc, Pd, Pi, Hi. cbn [app inputs_read agent_calls dispatched_lines
                                    Nat.add skipn].
    split; [reflexivity|]. split; [reflexivity|]. split; [reflexivity|].
    split; [exact Hc|]. destruct Hd as [Hd | Hd]; [now left | right; eauto].
Qed.

(** What one iteration adds to the trace: it reads at most one line of
    operator input, makes at most two agent calls, and hands plan lines
    over for execution only when the line it reads is the approval. *)
Lemma iteration_frame (st : state) :
  exists evs,
    out (snd (iteration st)) = out st ++ evs /\
    stdin (snd (iteration st)) = skipn (inputs_read evs) (stdin st) /\
    inputs_read evs <= 1 /\
    List.length (agent_calls evs) <= 2 /\
    (dispatched_lines evs = [] \/
     exists raw rest, stdin st = raw :: rest /\ strip (lower raw) = "yes").
Proof.
  destruct (truthy (current_plan st)) eqn:Hp.
  - destruct (review_frame st st (body_with_plan _ _ _ _ _ st Hp))
      as (evs & Ho & Hs & Hi & Hc & Hd).
    exists evs. split; [exact Ho|]. split; [exact Hs|].
    split; [lia|]. split; [lia | exact Hd].
  - pose proof (body_without_plan agent base initial_structure
                  user_context_input debug_mode st Hp) as Hb.
    unfold bind in Hb.
    destruct (agent (calls st) proposal) as [r|e] eqn:Ea.
    + rewrite (propose_content _ _ _ _ _ st r Ea) in Hb.
      destruct (review_frame _ _ Hb) as (evs & Ho & Hs & Hi & Hc & Hd).
      destruct (propose_events_obs base initial_structure user_context_input
                  debug_mode r) as (Qc & Qd & Qi).
      exists (propose_evs r ++ evs).
      rewrite Ho, Hs. cbn [out stdin]. rewrite <- app_assoc.
      rewrite inputs_read_app, agent_calls_app, dispatched_lines_app.
      rewrite Qc, Qd, Qi. cbn [app Nat.add List.length].
      repeat split; auto; lia.
    + rewrite (propose_fails _ _ _ _ _ st e Ea) in Hb.
      rewrite (iteration_raised _ _ _ _ _ _ _ _ Hb). cbn [snd out stdin].
      rewrite <- app_assoc. eexists. split; [reflexivity|].
      destruct (handler_events_silent e) as (Hc & Hd & Hi).
      unfold propose_failed_events.
      cbn [app inputs_read agent_calls dispatched_lines].
      rewrite lines_of_proposal, Hc, Hd, Hi. cbn.
      repeat split; auto.
Qed.

Lemma iteration_returns (st : state) :
  exists c, fst (iteration st) = Done c.
Proof.
  unfold loop_iteration. destruct (body st) as [[c|[msg|msg]] st'].
  - cbn; eauto.
  - destruct (is_rate_limit msg) eqn:E.
    + rewrite on_rate_limit by exact E. cbn; eauto.
    + rewrite on_provider_error by exact E. cbn; eauto.
  - rewrite on_exception_out. cbn; eauto.
Qed.

Lemma run_step (fuel : nat) (st : state) :
  run_loop (S fuel) st =
  match fst (iteration st) with
  | Done Continue => run_loop fuel (snd (iteration st))
  | _ => (Done (Some tt), snd (iteration st))
  end.
Proof.
  destruct (iteration_returns st) as [c Hc].
  cbn [main_loop]. unfold bind. destruct (iteration st) as [o st'].
  cbn [fst snd] in *. subst o. now destruct c.
Qed.

Lemma Forall_skipn_keeps {A} (P : A -> Prop) (n : nat) (l : list A) :
  Forall P l -> Forall P (skipn n l).
Proof.
  revert l. induction n as [|n IH]; intros l H; [exact H|].
  destruct l as [|x l]; [constructor|]. inversion H; subst. now apply IH.
Qed.

(** X13: a run reads at most one line of operator input and makes at
    most two agent calls per iteration; it only adds to the output, and
    the lines it leaves unread are the pending lines without those it
    read. *)
Theorem run_reads_and_calls_bounded (fuel : nat) (st : state) :
  exists evs,
    out (snd (run_loop fuel st)) = out st ++ evs /\
    stdin (snd (run_loop fuel st)) = skipn (inputs_read evs) (stdin st) /\
    inputs_read evs <= fuel /\
    List.length (agent_calls evs) <= 2 * fuel.
Proof.
  revert st. induction fuel as [|fuel IH]; intros st.
  - exists []. cbn. rewrite app_nil_r. auto.
  - rewrite run_step.
    destruct (iteration_frame st) as (evs & Ho & Hs & Hi & Hc & _).
    destruct (fst (iteration st)) as [[|]|e].
    + destruct (IH (snd (iteration st))) as (evs' & Ho' & Hs' & Hi' & Hc').
      exists (evs ++ evs').
      rewrite Ho', Hs', Ho, Hs, <- app_assoc, skipn_skipn.
      rewrite inputs_read_app, agent_calls_app, length_app.
      repeat split; auto; try lia. f_equal. lia.
    + exists evs. cbn [snd]. repeat split; auto; lia.
    + exists evs. cbn [snd]. repeat split; auto; lia.
Qed.

(** X14: no execution without approval: in a run in which no pending
    line of the operator is [yes] (whatever its casing and surrounding
    blanks), no plan line is ever handed over for execution, whatever the
    agent replies. *)
Theorem no_execution_without_approval (fuel : nat) (st : state)
  (Hno : Forall (fun line => strip (lower line) <> "yes") (stdin st)) :
  exists evs,
    out (snd (run_loop fuel st)) = out st ++ evs /\
    dispatched_lines evs = [].
Proof.
  revert st Hno. induction fuel as [|fuel IH]; intros st Hno.
  - exists []. cbn. now rewrite app_nil_r.
  - rewrite run_step.
    destruct (iteration_frame st) as (evs & Ho & Hs & _ & _ & Hd).
    assert (Hnone : dispatched_lines evs = []).
    { destruct Hd as [Hd | (raw & rest & Hin & Hyes)]; [exact Hd|].
      rewrite Hin in Hno. inversion Hno; subst. contradiction. }
    destruct (fst (iteration st)) as [[|]|e]; cbn [snd]; try (now exists evs).
    destruct (IH (snd (iteration st))) as (evs' & Ho' & Hd').
    { rewrite Hs. now apply Forall_skipn_keeps. }
    exists (evs ++ evs'). rewrite Ho', Ho, <- app_assoc, dispatched_lines_app.
    now rewrite Hnone, Hd'.
Qed.


Ltac settle :=
  repeat first
    [ progress cbn [current_plan last_response execution_prompt calls stdin out app snd fst]
    | rewrite <- app_assoc ];
  try reflexivity.

(** X15: approving when no plan could be extracted executes nothing: the
    iteration prints that there is no valid plan and goes on, and the next
    iteration, entered without a plan, starts with a new proposal
    request. *)
Theorem approval_without_plan_asks_again
  (st : state) (response raw : string) (rest : list string)
  (Hp : truthy (current_plan st) = false)
  (Ha : agent (calls st) proposal = Content response)
  (He : extract_plan_lines response = [])
  (Hin : stdin st = raw :: rest)
  (Hyes : strip (lower raw) = "yes") :
  let st' :=
    mkState "" response (execution_prompt st) (S (calls st)) rest
      (out st ++ propose_evs response
       ++ (if truthy response
           then [EPrint (nl ++ "No actionable plan steps extracted from the agent's proposal.")]
           else [])
       ++ [EInput review_prompt;
           EPrint "No valid plan to execute. Please provide feedback or type 'no'."]) in
  iteration st = (Done Continue, st') /\
  body st' = bind propose_step (fun _ => review_step) st' /\
  exists evs,
    out (snd (propose_step st')) = out st' ++ propose_failed_evs ++ evs.
Proof.
  intros st'.
  assert (Hplan : extract_plan response = "").
  { unfold extract_plan. now rewrite He. }
  split; [|split].
  - apply iteration_done.
    rewrite (body_without_plan _ _ _ _ _ st Hp). unfold bind at 1.
    rewrite (propose_content _ _ _ _ _ st response Ha), Hplan.
    erewrite review_out by (cbn [stdin]; exact Hin).
    rewrite Hyes, handle_approve_no_plan by reflexivity.
    unfold add_out, display_lines, st'. cbn [current_plan last_response truthy].
    destruct (truthy response); settle.
  - now apply body_without_plan.
  - destruct (propose_calls_agent agent base initial_structure user_context_input
                debug_mode st') as (evs & H & _). eauto.
Qed.

(** X16: the agent's reply to a revision request is stored as the last
    response and the plan is cleared, but the reply is not extracted: the
    next iteration, entered without a plan, sends the proposal prompt
    again and takes the plan from the reply to that. *)
Theorem revision_reply_is_not_extracted
  (st : state) (raw revised response : string) (rest : list string)
  (Hp : truthy (current_plan st) = true)
  (Hin : stdin st = raw :: rest)
  (Hy : (strip (lower raw) =? "yes") = false)
  (Hn : (strip (lower raw) =? "no") = false)
  (Hr : agent (calls st) (revision_prompt_of (strip (lower raw))) = Content revised)
  (Ha : agent (S (calls st)) proposal = Content response) :
  exists st1,
    iteration st = (Done Continue, st1) /\
    current_plan st1 = "" /\
    last_response st1 = revised /\
    body st1 = bind propose_step (fun _ => review_step) st1 /\
    current_plan (snd (propose_step st1)) = extract_plan response /\
    last_response (snd (propose_step st1)) = response.
Proof.
  pose proof (body_review agent base initial_structure user_context_input
                debug_mode st raw rest Hp Hin) as Hb.
  rewrite handle_feedback in Hb by assumption.
  erewrite revise_content in Hb by (cbn [calls]; exact Hr).
  apply iteration_done in Hb. eexists. split; [exact Hb|].
  cbn [current_plan last_response calls].
  split; [reflexivity|]. split; [reflexivity|].
  split; [now apply body_without_plan|].
  erewrite propose_content by (cbn [calls]; exact Ha). split; reflexivity.
Qed.

(** X17: a provider error on the proposal call that is not a rate limit
    ends the loop at once: two messages are printed, and the plan, the
    last response and the operator's pending lines are left as they
    were. *)
Theorem provider_error_ends_loop
  (st : state) (msg : string) (fuel : nat)
  (Hp : truthy (current_plan st) = false)
  (Ha : agent (calls st) proposal = Fails (ModelProviderError msg))
  (Hr : is_rate_limit msg = false) :
  run_loop (S fuel) st =
  (Done (Some tt),
   mkState (current_plan st) (last_response st) (execution_prompt st)
     (S (calls st)) (stdin st)
     (out st ++ propose_failed_evs
      ++ [EPrint (nl ++ "Error communicating with the model provider: " ++ msg);
          EPrint "Exiting loop due to unexpected model error."])).
Proof.
  apply main_loop_break.
  assert (Hb : body st =
               (Raised (ModelProviderError msg),
                mkState (current_plan st) (last_response st) (execution_prompt st)
                  (S (calls st)) (stdin st) (out st ++ propose_failed_evs))).
  { rewrite (body_without_plan _ _ _ _ _ st Hp). unfold bind.
    now rewrite (propose_fails _ _ _ _ _ st _ Ha). }
  rewrite (iteration_raised _ _ _ _ _ _ _ _ Hb).
  cbn [handler_ctl handler_events resets]. rewrite Hr. settle.
Qed.

(** X18: a rate limit on the execution call clears the plan and the last
    response, unless the plan text itself contains the words that the
    handler looks for in the execution prompt; the loop goes on after the
    pause. *)
Theorem execution_rate_limit_clears_plan
  (st : state) (raw msg : string) (rest : list string)
  (Hp : truthy (current_plan st) = true)
  (Hin : stdin st = raw :: rest)
  (Hyes : strip (lower raw) = "yes")
  (Ha : agent (calls st) (execution_prompt_of (current_plan st))
        = Fails (ModelProviderError msg))
  (Hr : is_rate_limit msg = true) :
  let kept := contains "Executing the plan" (current_plan st) in
  iteration st =
  (Done Continue,
   mkState (if kept then current_plan st else "")
           (if kept then last_response st else "")
           (Some (execution_prompt_of (current_plan st)))
           (S (calls st)) rest
           (out st ++ review_events st
            ++ [EPrint (nl ++ "Executing the plan...");
                EArun (execution_prompt_of (current_plan st))]
            ++ rate_limit_events)).
Proof.
  intros kept.
  pose proof (body_review agent base initial_structure user_context_input
                debug_mode st raw rest Hp Hin) as Hb.
  rewrite Hyes, handle_approve in Hb by exact Hp.
  erewrite execute_fails in Hb by (cbn [calls current_plan]; exact Ha).
  rewrite (iteration_raised _ _ _ _ _ _ _ _ Hb).
  cbn [handler_ctl handler_events resets]. rewrite Hr.
  unfold keeps_plan. cbn [execution_prompt current_plan last_response calls stdin out].
  change (contains "Executing the plan" (execution_prompt_of (current_plan st)))
    with kept.
  cbn [andb]. destruct kept; cbn [negb]; settle.
Qed.


Lemma slept_app (a b : list event) : slept (a ++ b) = slept a + slept b.
Proof.
  induction a as [|[]]; cbn [app slept]; try assumption; [reflexivity | lia].
Qed.

(** One iteration whose proposal call hits the rate limit. *)
Lemma rate_limited_iteration (st : state) (msg : string) :
  truthy (current_plan st) = false ->
  agent (calls st) proposal = Fails (ModelProviderError msg) ->
  is_rate_limit msg = true ->
  exists st1,
    iteration st = (Done Continue, st1) /\
    truthy (current_plan st1) = false /\
    calls st1 = S (calls st) /\
    stdin st1 = stdin st /\
    out st1 = out st ++ propose_failed_evs ++ rate_limit_events.
Proof.
  intros Hp Ha Hr.
  assert (Hb : body st =
               (Raised (ModelProviderError msg),
                mkState (current_plan st) (last_response st) (execution_prompt st)
                  (S (calls st)) (stdin st) (out st ++ propose_failed_evs))).
  { rewrite (body_without_plan _ _ _ _ _ st Hp). unfold bind.
    now rewrite (propose_fails _ _ _ _ _ st _ Ha). }
  rewrite (iteration_raised _ _ _ _ _ _ _ _ Hb).
  cbn [handler_ctl handler_events resets current_plan last_response
       execution_prompt calls stdin out]. rewrite Hr.
  eexists. split; [reflexivity|]. cbn [current_plan calls stdin out].
  split; [destruct (_ && _); [reflexivity | exact Hp]|].
  split; [reflexivity|]. split; [reflexivity | now rewrite <- app_assoc].
Qed.

(** X19: while every agent call hits the rate limit, the loop entered
    without a plan never ends and never reads the operator: after any
    number of iterations it has made that many agent calls, slept 65
    seconds after each, and left the pending input untouched. *)
Theorem persistent_rate_limit_retries_forever (fuel : nat) (st : state)
  (Hp : truthy (current_plan st) = false)
  (Hagent : forall n prompt, exists msg,
      agent n prompt = Fails (ModelProviderError msg) /\
      is_rate_limit msg = true) :
  exists evs,
    fst (run_loop fuel st) = Done None /\
    out (snd (run_loop fuel st)) = out st ++ evs /\
    stdin (snd (run_loop fuel st)) = stdin st /\
    calls (snd (run_loop fuel st)) = calls st + fuel /\
    List.length (agent_calls evs) = fuel /\
    slept evs = 65 * fuel /\
    inputs_read evs = 0.
Proof.
  revert st Hp. induction fuel as [|fuel IH]; intros st Hp.
  - exists []. cbn. rewrite app_nil_r, Nat.add_0_r. auto 8.
  - destruct (Hagent (calls st) proposal) as (msg & Ha & Hr).
    destruct (rate_limited_iteration st msg Hp Ha Hr)
      as (st1 & Hit & Hp1 & Hc1 & Hs1 & Ho1).
    rewrite (main_loop_continue _ _ _ _ _ _ _ _ Hit).
    destruct (IH st1 Hp1) as (evs & Hf & Ho & Hs & Hc & Hn & Hsl & Hi).
    exists (propose_failed_evs ++ rate_limit_events ++ evs).
    rewrite Hf, Ho, Hs, Hc, Ho1, Hs1, Hc1, <- !app_assoc.
    rewrite !agent_calls_app, !slept_app, !inputs_read_app, !length_app.
    rewrite Hn, Hsl, Hi. cbn. repeat split; lia.
Qed.

(** One iteration on closed input, with an agent that answers. *)
Lemma closed_input_iteration (st : state) :
  stdin st = [] ->
  (forall n prompt, exists text, agent n prompt = Content text) ->
  exists st1,
    iteration st = (Done Continue, st1) /\
    stdin st1 = [] /\
    truthy (current_plan st1) = false /\
    (if truthy (current_plan st) then calls st1 = calls st
     else calls st1 = S (calls st)).
Proof.
  intros Hin Hagent. destruct (truthy (current_plan st)) eqn:Hp.
  - pose proof (body_with_plan agent base initial_structure user_context_input
                  debug_mode st Hp) as Hb.
    rewrite (review_eof agent base debug_mode st Hin) in Hb.
    rewrite (iteration_raised _ _ _ _ _ _ _ _ Hb).
    eexists. split; [reflexivity|]. cbn. auto.
  - pose proof (body_without_plan agent base initial_structure
                  user_context_input debug_mode st Hp) as Hb.
    destruct (Hagent (calls st) proposal) as (r & Ha). unfold bind in Hb.
    rewrite (propose_content _ _ _ _ _ st r Ha) in Hb.
    rewrite review_eof in Hb by exact Hin.
    rewrite (iteration_raised _ _ _ _ _ _ _ _ Hb).
    eexists. split; [reflexivity|]. cbn. auto.
Qed.

(** X20: with the operator's input closed and an agent that answers
    every call, the loop never ends by itself: each read fails, the handler
    clears the plan and the loop goes on, so that every iteration after the
    first asks the agent for a proposal again. *)
Theorem closed_input_never_ends (fuel : nat) (st : state)
  (Hin : stdin st = [])
  (Hagent : forall n prompt, exists text, agent n prompt = Content text) :
  fst (run_loop fuel st) = Done None /\
  stdin (snd (run_loop fuel st)) = [] /\
  calls st + fuel <= S (calls (snd (run_loop fuel st))).
Proof.
  assert (G : forall fuel st,
             stdin st = [] -> truthy (current_plan st) = false ->
             fst (run_loop fuel st) = Done None /\
             stdin (snd (run_loop fuel st)) = [] /\
             calls (snd (run_loop fuel st)) = calls st + fuel).
  { clear st Hin. intros k. induction k as [|n IH]; intros st Hin Hp.
    - cbn. rewrite Nat.add_0_r. auto.
    - destruct (closed_input_iteration st Hin Hagent) as (st1 & Hit & Hs & Hp1 & Hc).
      rewrite Hp in Hc.
      rewrite (main_loop_continue _ _ _ _ _ _ _ _ Hit).
      destruct (IH st1 Hs Hp1) as (H1 & H2 & H3).
      rewrite H1, H2, H3, Hc. repeat split; lia. }
  destruct fuel as [|fuel]; [cbn; repeat split; auto; lia|].
  destruct (closed_input_iteration st Hin Hagent) as (st1 & Hit & Hs & Hp1 & Hc).
  rewrite (main_loop_continue _ _ _ _ _ _ _ _ Hit).
  destruct (G fuel st1 Hs Hp1) as (H1 & H2 & H3).
  rewrite H1, H2, H3. split; [reflexivity|]. split; [reflexivity|].
  destruct (truthy (current_plan st)); lia.
Qed.

(** An iteration whose next pending line is the rejection: either it
    reads the line and ends the loop, or it reads nothing. *)
Lemma rejection_iteration (st : state) (raw : string) (rest : list string) :
  stdin st = raw :: rest ->
  strip (lower raw) = "no" ->
  exists evs,
    out (snd (iteration st)) = out st ++ evs /\
    dispatched_lines evs = [] /\
    ((fst (iteration st) = Done Break /\
      stdin (snd (iteration st)) = rest /\
      inputs_read evs = 1 /\
      exists before,
        evs = before ++ [EInput review_prompt;
                         EPrint "Exiting without organizing."]) \/
     (stdin (snd (iteration st)) = stdin st /\ inputs_read evs = 0)).
Proof.
  intros Hin Hno.
  assert (R : forall st0 st1,
             body st0 = review_step st1 -> stdin st1 = raw :: rest ->
             exists evs,
               out (snd (iteration st0)) = out st1 ++ evs /\
               dispatched_lines evs = [] /\
               fst (iteration st0) = Done Break /\
               stdin (snd (iteration st0)) = rest /\
               inputs_read evs = 1 /\
               exists before,
                 evs = before ++ [EInput review_prompt;
                                  EPrint "Exiting without organizing."]).
  { intros st0 st1 Hb Hin1.
    rewrite (review_reject agent base debug_mode st1 raw rest Hin1 Hno) in Hb.
    rewrite (iteration_done _ _ _ _ _ _ _ _ Hb). cbn [fst snd out stdin].
    destruct (prints_silent (display_lines st1)) as (_ & Pd & Pi).
    eexists. split; [reflexivity|].
    rewrite dispatched_lines_app, inputs_read_app, Pd, Pi.
    split; [reflexivity|]. split; [reflexivity|]. split; [reflexivity|].
    split; [reflexivity|]. eexists. reflexivity. }
  destruct (truthy (current_plan st)) eqn:Hp.
  - destruct (R st st (body_with_plan _ _ _ _ _ st Hp) Hin)
      as (evs & Ho & Hd & Hf & Hs & Hi & Hb).
    exists evs. split; [exact Ho|]. split; [exact Hd|]. left. auto.
  - pose proof (body_without_plan agent base initial_structure
                  user_context_input debug_mode st Hp) as Hb.
    unfold bind in Hb.
    destruct (agent (calls st) proposal) as [r|e] eqn:Ea.
    + rewrite (propose_content _ _ _ _ _ st r Ea) in Hb.
      destruct (R _ _ Hb Hin) as (evs & Ho & Hd & Hf & Hs & Hi & before & Hev).
      destruct (propose_events_obs base initial_structure user_context_input
                  debug_mode r) as (_ & Qd & Qi).
      exists (propose_evs r ++ evs). cbn [out] in Ho.
      rewrite Ho, <- app_assoc, dispatched_lines_app, inputs_read_app, Qd, Qi, Hd.
      split; [reflexivity|]. split; [reflexivity|]. left.
      split; [exact Hf|]. split; [exact Hs|]. split; [exact Hi|].
      exists (propose_evs r ++ before). now rewrite Hev, app_assoc.
    + rewrite (propose_fails _ _ _ _ _ st e Ea) in Hb.
      rewrite (iteration_raised _ _ _ _ _ _ _ _ Hb). cbn [snd out stdin].
      rewrite <- app_assoc. eexists. split; [reflexivity|].
      destruct (handler_events_silent e) as (_ & Hd & Hi).
      unfold propose_failed_events.
      cbn [app inputs_read dispatched_lines].
      rewrite lines_of_proposal, Hd, Hi. auto.
Qed.

(** An iteration of a session whose agent always answers, on a pending
    line other than the approval: the line is read, and the loop ends
    exactly when the line is the rejection. *)
Lemma answered_iteration (st : state) (raw : string) (rest : list string) :
  (forall n prompt, exists text, agent n prompt = Content text) ->
  stdin st = raw :: rest ->
  strip (lower raw) <> "yes" ->
  stdin (snd (iteration st)) = rest /\
  fst (iteration st)
  = Done (if strip (lower raw) =? "no" then Break else Continue).
Proof.
  intros Hagent Hin Hyes.
  assert (R : forall st1, stdin st1 = raw :: rest ->
             exists st2,
               review_step st1
               = (Done (if strip (lower raw) =? "no" then Break else Continue),
                  st2) /\
               stdin st2 = rest).
  { intros st1 Hin1.
    rewrite (review_out agent base debug_mode st1 raw rest Hin1).
    destruct (strip (lower raw) =? "no") eqn:En.
    - apply String.eqb_eq in En. rewrite En, handle_reject.
      eexists. split; reflexivity.
    - rewrite handle_feedback; [|apply String.eqb_neq; exact Hyes|exact En].
      match goal with
      | |- context [revise agent debug_mode ?u ?s] =>
          destruct (Hagent (calls s) (revision_prompt_of u)) as (text & Ea);
          rewrite (revise_content agent debug_mode s u text Ea)
      end.
      eexists. split; reflexivity. }
  destruct (truthy (current_plan st)) eqn:Hp.
  - destruct (R st Hin) as (st2 & Hr & Hs2).
    pose proof (body_with_plan agent base initial_structure
                  user_context_input debug_mode st Hp) as Hb.
    rewrite Hr in Hb.
    rewrite (iteration_done _ _ _ _ _ _ _ _ Hb). auto.
  - pose proof (body_without_plan agent base initial_structure
                  user_context_input debug_mode st Hp) as Hb.
    unfold bind in Hb.
    destruct (Hagent (calls st) proposal) as (r & Ea).
    rewrite (propose_content _ _ _ _ _ st r Ea) in Hb.
    destruct (R (mkState (extract_plan r) r (execution_prompt st)
                   (S (calls st)) (stdin st) (out st ++ propose_evs r)) Hin)
      as (st2 & Hr & Hs2).
    rewrite Hr in Hb.
    rewrite (iteration_done _ _ _ _ _ _ _ _ Hb). auto.
Qed.

(** C8: a session in which the operator answers the review prompt with
    the rejection token without having answered [yes] before.  Whatever
    the agent replies and however long the loop runs, no plan line is
    handed over for execution and the lines after the rejection are not
    read; once the rejection is read the loop has ended, and the last
    events are the read and the farewell message.  With an agent that
    always answers, the loop ends within one iteration per pending line,
    and it reads the rejection unless an earlier line was one already. *)
Theorem rejection_without_prior_approval
  (fuel : nat) (st : state) (earlier : list string) (raw : string)
  (rest : list string)
  (Hin : stdin st = earlier ++ raw :: rest)
  (Hearlier : Forall (fun line => strip (lower line) <> "yes") earlier)
  (Hno : strip (lower raw) = "no") :
  exists evs,
    out (snd (run_loop fuel st)) = out st ++ evs /\
    dispatched_lines evs = [] /\
    stdin (snd (run_loop fuel st)) = skipn (inputs_read evs) (stdin st) /\
    inputs_read evs <= S (List.length earlier) /\
    (inputs_read evs = S (List.length earlier) ->
     fst (run_loop fuel st) = Done (Some tt) /\
     stdin (snd (run_loop fuel st)) = rest /\
     exists before,
       evs = before ++ [EInput review_prompt;
                        EPrint "Exiting without organizing."]) /\
    ((forall n prompt, exists text, agent n prompt = Content text) ->
     List.length earlier < fuel ->
     fst (run_loop fuel st) = Done (Some tt) /\
     (Forall (fun line => strip (lower line) <> "no") earlier ->
      inputs_read evs = S (List.length earlier))).
Proof.
  revert st earlier Hin Hearlier.
  induction fuel as [|fuel IH]; intros st earlier Hin Hearlier.
  - exists []. cbn. rewrite app_nil_r.
    repeat split; auto; try lia; discriminate.
  - rewrite run_step. destruct earlier as [|line earlier].
    + cbn [app] in Hin.
      destruct (rejection_iteration st raw rest Hin Hno)
        as (evs & Ho & Hd & [(Hf & Hs & Hi & Hb) | (Hs & Hi)]).
      * rewrite Hf. cbn [snd]. exists evs.
        rewrite Hi, Hin. cbn [skipn List.length].
        repeat split; auto.
      * assert (Hsilent : (forall n prompt, exists text,
                              agent n prompt = Content text) -> False).
        { intros Hagent.
          assert (Hyes : strip (lower raw) <> "yes")
            by (rewrite Hno; discriminate).
          destruct (answered_iteration st raw rest Hagent Hin Hyes) as (Hr & _).
          rewrite Hs, Hin in Hr.
          apply (f_equal (@List.length string)) in Hr. cbn in Hr. lia. }
        destruct (fst (iteration st)) as [[|]|e]; cbn [snd].
        -- destruct (IH (snd (iteration st)) [])
             as (evs' & Ho' & Hd' & Hs' & Hi' & Hend & _);
             [rewrite Hs; exact Hin | constructor |].
           exists (evs ++ evs').
           rewrite Ho', Ho, Hs', Hs, <- app_assoc.
           rewrite dispatched_lines_app, inputs_read_app, Hd, Hd', Hi.
           cbn [Nat.add app]. split; [reflexivity|]. split; [reflexivity|].
           split; [reflexivity|]. split; [exact Hi'|].
           split; [|intros Hagent; destruct (Hsilent Hagent)].
           intros Hall. destruct (Hend Hall) as (Hf & Hr & before & Hev).
           rewrite Hs', Hs in Hr.
           split; [exact Hf|]. split; [exact Hr|].
           exists (evs ++ before). now rewrite Hev, app_assoc.
        -- exists evs. rewrite Hi, Hs. cbn [skipn List.length].
           split; [exact Ho|]. split; [exact Hd|]. split; [reflexivity|].
           split; [lia|].
           split; [discriminate|intros Hagent; destruct (Hsilent Hagent)].
        -- exists evs. rewrite Hi, Hs. cbn [skipn List.length].
           split; [exact Ho|]. split; [exact Hd|]. split; [reflexivity|].
           split; [lia|].
           split; [discriminate|intros Hagent; destruct (Hsilent Hagent)].
    + cbn [app] in Hin. inversion Hearlier as [|? ? Hline Htail]; subst.
      destruct (iteration_frame st) as (evs & Ho & Hs & Hi & _ & Hd).
      assert (Hnone : dispatched_lines evs = []).
      { destruct Hd as [Hd | (r0 & t0 & Hin0 & Hyes)]; [exact Hd|].
        rewrite Hin in Hin0. injection Hin0 as <- _. contradiction. }
      assert (Hanswered :
                (forall n prompt, exists text, agent n prompt = Content text) ->
                inputs_read evs = 1 /\
                fst (iteration st)
                = Done (if strip (lower line) =? "no" then Break else Continue)).
      { intros Hagent.
        destruct (answered_iteration st line _ Hagent Hin Hline) as (Hr & Hf).
        split; [|exact Hf].
        rewrite Hs, Hin in Hr.
        destruct (inputs_read evs) as [|[|k]]; [|reflexivity|lia].
        cbn [skipn] in Hr.
        apply (f_equal (@List.length string)) in Hr. cbn in Hr. lia. }
      cbn [List.length].
      destruct (fst (iteration st)) as [[|]|e] eqn:Hfst; cbn [snd].
      * assert (Hnext : exists earlier',
                   stdin (snd (iteration st)) = earlier' ++ raw :: rest /\
                   (forall P : string -> Prop,
                       Forall P (line :: earlier) -> Forall P earlier') /\
                   inputs_read evs + List.length earlier'
                   = S (List.length earlier)).
        { rewrite Hs, Hin.
          destruct (inputs_read evs) as [|[|k]] eqn:Ek; [| |lia].
          - exists (line :: earlier). cbn. auto.
          - exists earlier. cbn. split; [reflexivity|]. split; [|reflexivity].
            intros P HP. now inversion HP. }
        destruct Hnext as (earlier' & Hin' & Hsub & Hlen).
        destruct (IH (snd (iteration st)) earlier' Hin' (Hsub _ Hearlier))
          as (evs' & Ho' & Hd' & Hs' & Hi' & Hend & Htotal).
        exists (evs ++ evs').
        rewrite Ho', Ho, <- app_assoc.
        rewrite dispatched_lines_app, inputs_read_app, Hnone, Hd'.
        split; [reflexivity|]. split; [reflexivity|].
        split; [rewrite Hs', Hs, skipn_skipn; f_equal; lia|].
        split; [lia|].
        split.
        -- intros Hall.
           assert (Hall' : inputs_read evs' = S (List.length earlier')) by lia.
           destruct (Hend Hall') as (Hf & Hr & before & Hev).
           split; [exact Hf|]. split; [exact Hr|].
           exists (evs ++ before). now rewrite Hev, app_assoc.
        -- intros Hagent Hfuel.
           destruct (Hanswered Hagent) as (Hone & _).
           destruct (Htotal Hagent) as (Hf & Hreads); [lia|].
           split; [exact Hf|].
           intros Hnever. rewrite (Hreads (Hsub _ Hnever)). lia.
      * exists evs.
        split; [exact Ho|]. split; [exact Hnone|]. split; [exact Hs|].
        split; [lia|]. split; [intros Hall; exfalso; lia|].
        intros Hagent Hfuel. split; [reflexivity|].
        intros Hnever. inversion Hnever as [|? ? Hl _]; subst.
        destruct (Hanswered Hagent) as (_ & Hf).
        apply String.eqb_neq in Hl. rewrite Hl in Hf. discriminate Hf.
      * exists evs.
        split; [exact Ho|]. split; [exact Hnone|]. split; [exact Hs|].
        split; [lia|]. split; [intros Hall; exfalso; lia|].
        intros Hagent Hfuel. split; [reflexivity|].
        destruct (Hanswered Hagent) as (_ & Hf).
        destruct (strip (lower line) =? "no"); discriminate Hf.
Qed.

End LoopProperties.

(** * Properties of the initial listing *)

Section ListingProperties.

Variable repr : pyval -> string.
Variable debug_mode : bool.

Local Abbreviation listing := (initial_listing repr debug_mode).

Lemma report_never_blank (v : pyval) (s : string) :
  snd (report_structure repr v) = Listed s ->
  v = VStr s /\ truthy (strip s) = true.
Proof.
  destruct v as [t| | |]; cbn [report_structure]; try discriminate.
  destruct (truthy (strip t)) eqn:E; cbn [snd]; [|discriminate].
  now intros [= ->].
Qed.

(** X21: the loop is entered only with a structure text that is not
    blank: when the listing step hands a text to the loop, the agent had
    answered and the text, stripped, is not empty. *)
Theorem listing_never_blank (reply : listing_reply) (s : string)
  (H : snd (listing reply) = Listed s) :
  truthy (strip s) = true /\ exists r, reply = Responds r.
Proof.
  destruct reply as [r|[msg|msg]]; cbn [initial_listing snd] in H;
    try discriminate.
  split; [|eauto].
  destruct (pick_structure repr r) as [v warning].
  destruct (report_structure repr v) as [shown result] eqn:E.
  cbn [snd] in H. subst result.
  apply (report_never_blank v). now rewrite E.
Qed.

(** X22: when the first tool result is a dictionary for
    [list_directory] with a content, the structure text is that content
    when it is a string, or the text of its first item when it is a list,
    whatever the response's own content says; a blank text makes [main]
    return. *)
Theorem listing_uses_tool_output
  (r : response) (entries : list (string * pyval)) (more : list pyval)
  (s : string)
  (Ht : tools r = Some (VList (VDict entries :: more)))
  (Hn : names_list_directory entries = true)
  (Hc : lookup "content" entries = Some (VStr s) \/
        exists item others,
          lookup "content" entries = Some (VList (item :: others)) /\
          py_str repr item = s) :
  snd (listing (Responds r)) = if truthy (strip s) then Listed s else Returns.
Proof.
  assert (Hp : pick_structure repr r = (VStr s, [])).
  { unfold pick_structure. rewrite Ht, Hn.
    destruct Hc as [-> | (item & others & -> & <-)]; reflexivity. }
  cbn [initial_listing]. rewrite Hp. cbn [report_structure].
  destruct (truthy (strip s)); reflexivity.
Qed.

(** X23: when the response carries a non-empty list of tool results, the
    response's own content is not looked at: two such responses with the
    same tool results leave the listing step the same way, and never with
    an exception. *)
Theorem listing_with_tools_ignores_content
  (r r' : response) (first : pyval) (more : list pyval)
  (Ht : tools r = Some (VList (first :: more)))
  (Ht' : tools r' = tools r) :
  snd (listing (Responds r)) = snd (listing (Responds r')) /\
  snd (listing (Responds r)) <> Propagates.
Proof.
  assert (Hsame : pick_structure repr r' = pick_structure repr r).
  { unfold pick_structure. now rewrite Ht', Ht. }
  assert (Hstr : exists s w, pick_structure repr r = (VStr s, w)).
  { unfold pick_structure. rewrite Ht.
    destruct first as [t|l|d|t]; try (eexists _, _; reflexivity).
    destruct (names_list_directory d); [|eexists _, _; reflexivity].
    destruct (lookup "content" d) as [[t|[|i l]|d'|t]|];
      eexists _, _; reflexivity. }
  destruct Hstr as (s & w & Hr).
  cbn [initial_listing]. rewrite Hsame, Hr.
  cbn [report_structure]. destruct (truthy (strip s)); cbn [snd];
    split; (reflexivity || discriminate).
Qed.

(** X24: the listing step makes exactly one agent call, never pauses and
    never reads operator input, whatever the agent replies; a provider
    error, rate limit or not, makes [main] return. *)
Theorem listing_calls_once_without_pause (reply : listing_reply) :
  agent_calls (fst (listing reply)) = [initial_structure_prompt] /\
  slept (fst (listing reply)) = 0 /\
  inputs_read (fst (listing reply)) = 0 /\
  (forall msg, reply = Throws (ModelProviderError msg) ->
               snd (listing reply) = Returns).
Proof.
  assert (W : forall r, exists texts,
               snd (pick_structure repr r) = map EPrint texts).
  { intros r. unfold pick_structure.
    destruct (tools r) as [[t|[|[t|l|d|t] l']|d|t]|];
      try (eexists [_]; reflexivity).
    destruct (names_list_directory d); [|eexists [_]; reflexivity].
    destruct (lookup "content" d) as [[t|[|i l]|d'|t]|];
      try (eexists [_]; reflexivity); now exists []. }
  assert (R : forall v, exists texts,
               fst (report_structure repr v) = map EPrint texts).
  { intros v. destruct v as [t| | |]; cbn [report_structure];
      try (eexists [_; _; _]; reflexivity).
    destruct (truthy (strip t)); [eexists [_; _; _]; reflexivity | eexists [_; _; _; _]; reflexivity]. }
  destruct reply as [r|[msg|msg]]; cbn [initial_listing].
  - destruct (W r) as [wt Hw]. destruct (pick_structure repr r) as [v warning].
    cbn [snd] in Hw. subst warning.
    destruct (R v) as [st Hs]. destruct (report_structure repr v) as [shown result].
    cbn [fst snd] in *. subst shown.
    destruct (prints_silent wt) as (Wc & _ & Wi).
    destruct (prints_silent st) as (Sc & _ & Si).
    assert (Wz : slept (map EPrint wt) = 0) by (clear; induction wt; auto).
    assert (Sz : slept (map EPrint st) = 0) by (clear; induction st; auto).
    rewrite !agent_calls_app, !slept_app, !inputs_read_app, Wc, Sc, Wi, Si, Wz, Sz.
    destruct debug_mode; cbn; repeat split; auto; discriminate.
  - cbn. repeat split; auto.
  - cbn. repeat split; auto. discriminate.
Qed.

End ListingProperties.

(** * The operator's context *)

Lemma lstrip_blank (s : string) :
  forallb is_space (list_ascii_of_string s) = true -> lstrip s = "".
Proof.
  induction s as [|a t IH]; [reflexivity|]. cbn [list_ascii_of_string forallb lstrip].
  intros H. apply andb_true_iff in H as [-> H]. now apply IH.
Qed.

(** X25: a context line made of blanks only counts as no context: the
    proposal prompt is then the base prompt, without the context header. *)
Theorem blank_context_is_no_context
  (base initial_structure raw : string)
  (Hb : forallb is_space (list_ascii_of_string raw) = true) :
  strip raw = "" /\
  proposal_prompt base initial_structure (strip raw)
  = base_prompt base initial_structure.
Proof.
  assert (H : strip raw = "") by (unfold strip; now rewrite lstrip_blank).
  rewrite H. split; reflexivity.
Qed.

(** * Concrete cases of the further properties *)

Section FurtherCases.

Import Demo Samples.

Lemma boundary_check_by_components_witness :
  startswith "/tmp" sep = true /\
  (is_path_within_boundary "/tmp" "a/b" "a" = true <->
   initial_slashes (abspath "/tmp" "a") = 1 /\
   comps_prefix (path_comps (abspath "/tmp" "a"))
     (path_comps (abspath "/tmp" "a/b")) = true).
Proof.
  split; [reflexivity|].
  exact (proj2 (boundary_check_by_components "/tmp" eq_refl "a/b" "a")).
Defined.

Lemma boundary_check_transitive_witness :
  startswith "/" sep = true /\
  is_path_within_boundary "/" "/a/b/c" "/a/b" = true /\
  is_path_within_boundary "/" "/a/b" "/a" = true /\
  is_path_within_boundary "/" "/a/b/c" "/a" = true.
Proof.
  split; [reflexivity|]. split; [reflexivity|]. split; [reflexivity|].
  exact (boundary_check_transitive "/" eq_refl "/a/b/c" "/a/b" "/a"
           eq_refl eq_refl).
Defined.

Lemma boundary_check_antisymmetric_witness :
  startswith "/tmp" sep = true /\
  is_path_within_boundary "/tmp" "x/." "/tmp/x" = true /\
  is_path_within_boundary "/tmp" "/tmp/x" "x/." = true /\
  abspath "/tmp" "x/." = abspath "/tmp" "/tmp/x".
Proof.
  split; [reflexivity|]. split; [reflexivity|]. split; [reflexivity|].
  exact (boundary_check_antisymmetric "/tmp" eq_refl "x/." "/tmp/x"
           eq_refl eq_refl).
Defined.

Lemma root_boundary_admits_all_witness :
  startswith "/tmp" sep = true /\
  is_path_within_boundary "/tmp" "../etc/passwd" "/" = true.
Proof.
  split; [reflexivity|].
  exact (root_boundary_admits_all "/tmp" eq_refl "../etc/passwd").
Defined.

Lemma abspath_stable_witness :
  startswith "/tmp" sep = true /\
  abspath "/tmp" (abspath "/tmp" "a/../b") = abspath "/tmp" "a/../b".
Proof.
  split; [reflexivity|].
  exact (proj1 (abspath_stable "/tmp" eq_refl "a/../b")).
Defined.

Lemma prompt_takes_first_accepted_witness :
  prompt_target "/" "/home/u" no_lookup only_docs "~" entered
  = Some ("/home/u/docs", ["later"]) /\
  exists refused p,
    entered = refused ++ p :: ["later"] /\
    "/home/u/docs" = resolve "/" "/home/u" no_lookup p.
Proof.
  assert (Hsel : prompt_target "/" "/home/u" no_lookup only_docs "~" entered
                 = Some ("/home/u/docs", ["later"]))
    by (vm_compute; reflexivity).
  split; [exact Hsel|].
  destruct (prompt_takes_first_accepted "/" "/home/u" no_lookup only_docs "~"
              entered ["later"] "/home/u/docs" Hsel)
    as (refused & p & H1 & H2 & _).
  exists refused, p. split; assumption.
Defined.

Lemma chosen_target_not_empty_witness :
  determine_target "/" "/home/u" no_lookup only_docs "~" "" entered
  = Some ("/home/u/docs", ["later"]) /\
  truthy "/home/u/docs" = true.
Proof.
  assert (Hsel : determine_target "/" "/home/u" no_lookup only_docs "~" ""
                   entered = Some ("/home/u/docs", ["later"]))
    by (vm_compute; reflexivity).
  split; [exact Hsel|].
  exact (chosen_target_not_empty "/" "/home/u" no_lookup only_docs "~" ""
           entered ["later"] "/home/u/docs" Hsel).
Defined.

Lemma plan_taken_after_first_marker_witness :
  contains plan_marker move_first = true /\
  exists pre post,
    move_first = (pre ++ plan_marker ++ post)%string /\
    extract_plan_lines move_first = tool_lines (strip post).
Proof.
  assert (Hm : contains plan_marker move_first = true)
    by (vm_compute; reflexivity).
  split; [exact Hm|].
  destruct (plan_taken_after_first_marker move_first Hm)
    as (pre & post & H1 & _ & H2).
  exists pre, post. split; assumption.
Defined.

Lemma no_execution_without_approval_witness :
  Forall (fun line => strip (lower line) <> "yes") ["by year"; "No"] /\
  exists evs,
    out (snd (run (agent_repeating create_first) 3 ["by year"; "No"])) = evs /\
    dispatched_lines evs = [].
Proof.
  assert (Hno : Forall (fun line => strip (lower line) <> "yes") ["by year"; "No"]).
  { repeat constructor; vm_compute; discriminate. }
  split; [exact Hno|].
  destruct (no_execution_without_approval (agent_repeating create_first)
              base listing "" false 3 (initial_state ["by year"; "No"]) Hno)
    as (evs & Ho & Hd).
  exists evs. split; [exact Ho | exact Hd].
Defined.

Lemma approval_without_plan_asks_again_witness :
  extract_plan_lines "I cannot help." = [] /\
  strip (lower "yes") = "yes" /\
  fst (iterate (agent_repeating "I cannot help.") (initial_state ["yes"]))
  = Done Continue.
Proof.
  assert (He : extract_plan_lines "I cannot help." = [])
    by (vm_compute; reflexivity).
  assert (Hyes : strip (lower "yes") = "yes") by (vm_compute; reflexivity).
  split; [exact He|]. split; [exact Hyes|].
  destruct (approval_without_plan_asks_again (agent_repeating "I cannot help.")
              base listing "" false (initial_state ["yes"]) "I cannot help."
              "yes" [] eq_refl eq_refl He eq_refl Hyes) as (H & _).
  unfold iterate. now rewrite H.
Defined.

Lemma revision_reply_is_not_extracted_witness :
  (strip (lower "By Year") =? "yes") = false /\
  (strip (lower "By Year") =? "no") = false /\
  exists st1,
    iterate (agent_repeating move_first) (reviewing ["By Year"])
    = (Done Continue, st1) /\
    last_response st1 = move_first.
Proof.
  assert (Hy : (strip (lower "By Year") =? "yes") = false)
    by (vm_compute; reflexivity).
  assert (Hn : (strip (lower "By Year") =? "no") = false)
    by (vm_compute; reflexivity).
  assert (Hp : truthy (current_plan (reviewing ["By Year"])) = true)
    by (vm_compute; reflexivity).
  split; [exact Hy|]. split; [exact Hn|].
  destruct (revision_reply_is_not_extracted (agent_repeating move_first)
              base listing "" false (reviewing ["By Year"]) "By Year"
              move_first move_first [] Hp eq_refl Hy Hn eq_refl eq_refl)
    as (st1 & H1 & _ & H2 & _).
  exists st1. split; [exact H1 | exact H2].
Defined.

Lemma provider_error_ends_loop_witness :
  is_rate_limit "connection refused" = false /\
  fst (run agent_down 5 ["yes"]) = Done (Some tt).
Proof.
  assert (Hr : is_rate_limit "connection refused" = false)
    by (vm_compute; reflexivity).
  split; [exact Hr|].
  unfold run.
  now rewrite (provider_error_ends_loop agent_down base listing "" false
                 (initial_state ["yes"]) "connection refused" 4
                 eq_refl eq_refl Hr).
Defined.

Lemma execution_rate_limit_clears_plan_witness :
  strip (lower "yes") = "yes" /\
  is_rate_limit "429 Too Many Requests" = true /\
  current_plan (snd (iterate agent_throttled (reviewing ["yes"]))) = "".
Proof.
  assert (Hyes : strip (lower "yes") = "yes") by (vm_compute; reflexivity).
  assert (Hr : is_rate_limit "429 Too Many Requests" = true)
    by (vm_compute; reflexivity).
  assert (Hp : truthy (current_plan (reviewing ["yes"])) = true)
    by (vm_compute; reflexivity).
  split; [exact Hyes|]. split; [exact Hr|].
  unfold iterate.
  rewrite (execution_rate_limit_clears_plan agent_throttled base listing ""
             false (reviewing ["yes"]) "yes" "429 Too Many Requests" []
             Hp eq_refl Hyes eq_refl Hr).
  vm_compute. reflexivity.
Defined.

Lemma persistent_rate_limit_retries_forever_witness :
  exists evs,
    out (snd (run agent_throttled 4 ["yes"])) = evs /\
    fst (run agent_throttled 4 ["yes"]) = Done None /\
    slept evs = 260 /\
    inputs_read evs = 0.
Proof.
  assert (Hagent : forall (n : nat) (prompt : string), exists msg,
             agent_throttled n prompt = Fails (ModelProviderError msg) /\
             is_rate_limit msg = true).
  { intros n prompt. exists "429 Too Many Requests".
    split; [reflexivity | vm_compute; reflexivity]. }
  destruct (persistent_rate_limit_retries_forever agent_throttled base listing
              "" false 4 (initial_state ["yes"]) eq_refl Hagent)
    as (evs & Hf & Ho & _ & _ & _ & Hs & Hi).
  exists evs. split; [exact Ho|]. split; [exact Hf|].
  split; [exact Hs | exact Hi].
Defined.

Lemma closed_input_never_ends_witness :
  fst (run (agent_repeating create_first) 6 []) = Done None.
Proof.
  assert (Hagent : forall (n : nat) (prompt : string), exists text,
             agent_repeating create_first n prompt = Content text)
    by (intros; eexists; reflexivity).
  exact (proj1 (closed_input_never_ends (agent_repeating create_first) base
                  listing "" false 6 (initial_state []) eq_refl Hagent)).
Defined.

Lemma listing_never_blank_witness :
  snd (initial_listing plain_repr false (Responds (text_only "[FILE] a.jpg")))
  = Listed "[FILE] a.jpg" /\
  truthy (strip "[FILE] a.jpg") = true.
Proof.
  assert (H : snd (initial_listing plain_repr false
                     (Responds (text_only "[FILE] a.jpg")))
              = Listed "[FILE] a.jpg") by (vm_compute; reflexivity).
  split; [exact H|].
  exact (proj1 (listing_never_blank plain_repr false _ _ H)).
Defined.

Lemma listing_uses_tool_output_witness :
  names_list_directory
    [("tool_name", VStr "list_directory"); ("content", VList [VStr "[FILE] a.jpg"])]
  = true /\
  snd (initial_listing plain_repr true (Responds (with_tools "Here it is.")))
  = Listed "[FILE] a.jpg".
Proof.
  assert (Hn : names_list_directory
                 [("tool_name", VStr "list_directory");
                  ("content", VList [VStr "[FILE] a.jpg"])] = true)
    by (vm_compute; reflexivity).
  split; [exact Hn|].
  rewrite (listing_uses_tool_output plain_repr true (with_tools "Here it is.")
             _ [] "[FILE] a.jpg" eq_refl Hn
             (or_intror (ex_intro _ (VStr "[FILE] a.jpg")
                           (ex_intro _ [] (conj eq_refl eq_refl))))).
  vm_compute. reflexivity.
Defined.

Lemma listing_with_tools_ignores_content_witness :
  tools (with_tools "b") = tools (with_tools "a") /\
  snd (initial_listing plain_repr false (Responds (with_tools "a")))
  = snd (initial_listing plain_repr false (Responds (with_tools "b"))).
Proof.
  split; [reflexivity|].
  exact (proj1 (listing_with_tools_ignores_content plain_repr false
                  (with_tools "a") (with_tools "b") tool_result []
                  eq_refl eq_refl)).
Defined.

Lemma blank_context_is_no_context_witness :
  forallb is_space (list_ascii_of_string "   ") = true /\
  proposal_prompt base listing (strip "   ") = base_prompt base listing.
Proof.
  assert (Hb : forallb is_space (list_ascii_of_string "   ") = true)
    by (vm_compute; reflexivity).
  split; [exact Hb|].
  exact (proj2 (blank_context_is_no_context base listing "   " Hb)).
Defined.

(** The session [yes; no] against an agent whose execution call raises:
    the first iteration hands the plan over, the handler keeps the loop
    going, and the second iteration reads the rejection and ends.  The
    plan lines were dispatched although the session ended by rejection. *)
Lemma rejection_after_failed_execution :
  fst (run agent_failing_execution 2 ["yes"; "no"]) = Done (Some tt) /\
  stdin (snd (run agent_failing_execution 2 ["yes"; "no"])) = [] /\
  (exists before,
      out (snd (run agent_failing_execution 2 ["yes"; "no"]))
      = before ++ [EInput review_prompt;
                   EPrint "Exiting without organizing."]) /\
  dispatched_lines (out (snd (run agent_failing_execution 2 ["yes"; "no"])))
  = [create_line; move_line].
Proof.
  split; [vm_compute; reflexivity|].
  split; [vm_compute; reflexivity|].
  split; [|vm_compute; reflexivity].
  eexists (removelast (removelast
             (out (snd (run agent_failing_execution 2 ["yes"; "no"]))))).
  vm_compute. reflexivity.
Qed.

Lemma rejection_without_prior_approval_witness :
  stdin (initial_state ["by year"; " No "; "yes"])
  = ["by year"] ++ " No " :: ["yes"] /\
  Forall (fun line => strip (lower line) <> "yes") ["by year"] /\
  strip (lower " No ") = "no" /\
  exists evs,
    out (snd (run (agent_repeating create_first) 3
                ["by year"; " No "; "yes"]))
    = out (initial_state ["by year"; " No "; "yes"]) ++ evs /\
    dispatched_lines evs = [] /\
    inputs_read evs = 2 /\
    fst (run (agent_repeating create_first) 3 ["by year"; " No "; "yes"])
    = Done (Some tt) /\
    stdin (snd (run (agent_repeating create_first) 3
                  ["by year"; " No "; "yes"]))
    = ["yes"] /\
    exists before,
      evs = before ++ [EInput review_prompt;
                       EPrint "Exiting without organizing."].
Proof.
  assert (Hin : stdin (initial_state ["by year"; " No "; "yes"])
                = ["by year"] ++ " No " :: ["yes"]) by reflexivity.
  assert (Hearlier : Forall (fun line => strip (lower line) <> "yes")
                       ["by year"]).
  { constructor; [|constructor]. vm_compute. discriminate. }
  assert (Hno : strip (lower " No ") = "no") by (vm_compute; reflexivity).
  assert (Hagent : forall (n : nat) (prompt : string), exists text,
             agent_repeating create_first n prompt = Content text)
    by (intros; eexists; reflexivity).
  assert (Hnever : Forall (fun line => strip (lower line) <> "no")
                     ["by year"]).
  { constructor; [|constructor]. vm_compute. discriminate. }
  split; [exact Hin|]. split; [exact Hearlier|]. split; [exact Hno|].
  destruct (rejection_without_prior_approval (agent_repeating create_first)
              base listing "" false 3
              (initial_state ["by year"; " No "; "yes"])
              ["by year"] " No " ["yes"] Hin Hearlier Hno)
    as (evs & Ho & Hd & _ & _ & Hend & Htotal).
  assert (Hfuel : List.length ["by year"] < 3) by (cbn; lia).
  destruct (Htotal Hagent Hfuel) as (_ & Hreads).
  destruct (Hend (Hreads Hnever)) as (Hf & Hr & Hlast).
  exists evs. unfold run.
  split; [exact Ho|]. split; [exact Hd|]. split; [exact (Hreads Hnever)|].
  split; [exact Hf|]. split; [exact Hr|]. exact Hlast.
Defined.

End FurtherCases.
